(** * Artworks table with cross-page row selection (src/App.tsx)

    A shallow embedding of the [App] component: its state containers,
    the network read [fetchData], and the event handlers [loadPage],
    [handleCheckbox], [handleSelectAll], [selectRows] and
    [submitSelection], followed by the properties of the selection
    logic.

    Modelling conventions.
    - JavaScript numbers that the component manipulates are integers
      (identifiers, counters, page indices, totals); they are embedded
      as [Z].  [parseInt] rounds what it reads to a Number; the
      arithmetic of the handlers is exact, as it is on Numbers as long
      as the totals that the service announces stay below 2^53.
      [NaN], which only [parseInt] can produce here, is [None].
    - Texts are held as the bytes of their UTF-8 encoding.
    - [Set<number>] is a [gset Z].  Iteration order of the set is only
      observable through the text of the "Submitted" notification, which
      is kept symbolic.
    - A handler is a function from the state captured by the render in
      which it was created (its closure) to the state after all queued
      setters have been applied, together with the trace of effects
      (network reads, console output, notifications) it performed.
      This is the handler running to its end before anything else
      happens; [reachable] is built from such runs.  The two [async]
      handlers are also split at their reads ([loadPage_resume],
      [selectRows_resume]), and [astep] lets other events be handled
      while a read is in flight.
    - An event invokes the handler of the latest render, whose closure
      is the current state.  What the table library does with the
      handlers it was given at an earlier render is not modelled.
    - The remote service is an oracle [Remote]: [None] stands for a
      rejected [fetch] or a non-ok response, which make [fetchData]
      throw; a body that is returned has the shape of [ApiResponse].
    - [toastRef.current] is the mounted [Toast], so every
      [toastRef.current?.show] shows its notification. *)

From Stdlib Require Import ZArith String Ascii List Bool Lia.
From stdpp Require Import base gmap sets list strings.

Local Open Scope Z_scope.
#[local] Set Warnings "-clear-no-such-hyp".

(** ** JavaScript built-ins used by the component *)

Module JS.

(** A text is held as the bytes of its UTF-8 encoding.  The white
    space that [parseInt] skips is WhiteSpace and LineTerminator of
    ECMA-262: TAB, LF, VT, FF, CR and SP in one byte; U+00A0 in two;
    U+1680, U+2000 to U+200A, U+2028, U+2029, U+202F, U+205F, U+3000
    and U+FEFF in three. *)
Definition byte (c : ascii) : Z := Z.of_nat (nat_of_ascii c).

Definition isWhiteSpace (c : ascii) : bool :=
  let n := byte c in
  ((9 <=? n) && (n <=? 13)) || (n =? 32).

Definition isWhiteSpace2 (c1 c2 : ascii) : bool :=
  (byte c1 =? 194) && (byte c2 =? 160).

Definition isWhiteSpace3 (c1 c2 c3 : ascii) : bool :=
  let '(n1, n2, n3) := (byte c1, byte c2, byte c3) in
  ((n1 =? 225) && (n2 =? 154) && (n3 =? 128))
  || ((n1 =? 226) && (n2 =? 128)
      && (((128 <=? n3) && (n3 <=? 138)) || (n3 =? 168) || (n3 =? 169) || (n3 =? 175)))
  || ((n1 =? 226) && (n2 =? 129) && (n3 =? 159))
  || ((n1 =? 227) && (n2 =? 128) && (n3 =? 128))
  || ((n1 =? 239) && (n2 =? 187) && (n3 =? 191)).

Fixpoint trimStart (s : string) : string :=
  match s with
  | String c1 r1 =>
      if isWhiteSpace c1 then trimStart r1
      else
        match r1 with
        | String c2 r2 =>
            if isWhiteSpace2 c1 c2 then trimStart r2
            else
              match r2 with
              | String c3 r3 => if isWhiteSpace3 c1 c2 c3 then trimStart r3 else s
              | EmptyString => s
              end
        | EmptyString => s
        end
  | EmptyString => EmptyString
  end.

(** The Number value of a mathematical integer: itself below 2^53 in
    magnitude; otherwise rounded to 53 significant bits, ties to even.
    What rounds to 2^1024 or beyond is Infinity, for which 2^1024
    stands: it is above every finite number, as Infinity is. *)
Definition toNumber (z : Z) : Z :=
  let a := Z.abs z in
  if a <? 2 ^ 53 then z
  else
    let e := Z.log2 a - 52 in
    let q := a / 2 ^ e in
    let r := a mod 2 ^ e in
    let half := 2 ^ (e - 1) in
    let q := if (half <? r) || ((r =? half) && Z.odd q) then q + 1 else q in
    let m := q * 2 ^ e in
    Z.sgn z * (if 2 ^ 1024 <=? m then 2 ^ 1024 else m).

(** Value of an alphanumeric character as a digit: 0-9, a-z, A-Z. *)
Definition digitValue (c : ascii) : option Z :=
  let n := Z.of_nat (nat_of_ascii c) in
  if (48 <=? n) && (n <=? 57) then Some (n - 48)
  else if (97 <=? n) && (n <=? 122) then Some (n - 87)
  else if (65 <=? n) && (n <=? 90) then Some (n - 55)
  else None.

Definition radixDigit (R : Z) (c : ascii) : option Z :=
  match digitValue c with
  | Some d => if d <? R then Some d else None
  | None => None
  end.

(** The longest prefix of radix-[R] digits, read as a number; [None]
    when that prefix is empty. *)
Fixpoint parseDigits (R : Z) (s : string) (acc : Z) (seen : bool) : option Z :=
  match s with
  | String c s' =>
      match radixDigit R c with
      | Some d => parseDigits R s' (acc * R + d) true
      | None => if seen then Some acc else None
      end
  | EmptyString => if seen then Some acc else None
  end.

(** [parseInt(string)] with the radix left undefined (ECMA-262,
    sec. parseInt): leading white space is dropped, an optional sign is
    read, a [0x]/[0X] prefix selects radix 16 (otherwise 10), and the
    longest run of digits is converted to a Number.  [None] is [NaN]. *)
Definition parseInt (input : string) : option Z :=
  let s := trimStart input in
  let '(sign, s) :=
    match s with
    | String "-"%char r => (-1, r)
    | String "+"%char r => (1, r)
    | _ => (1, s)
    end in
  let '(R, s) :=
    match s with
    | String "0"%char (String "x"%char r) => (16, r)
    | String "0"%char (String "X"%char r) => (16, r)
    | _ => (10, s)
    end in
  match parseDigits R s 0 false with
  | Some m => Some (toNumber (sign * m))
  | None => None
  end.

(** [set.has(x)] *)
Definition has (s : gset Z) (x : Z) : bool := bool_decide (x ∈ s).

(** [set.add(x)] and [set.delete(x)] on a set that the caller owns. *)
Definition add (x : Z) (s : gset Z) : gset Z := {[x]} ∪ s.
Definition delete (x : Z) (s : gset Z) : gset Z := s ∖ {[x]}.

(** [array.every(p)] *)
Definition every {A} (p : A → bool) (l : list A) : bool := forallb p l.

End JS.

(** ** Data model *)

Module Artwork.
Record t := mk {
  id : Z;
  title : string;
  place_of_origin : string;
  artist_display : string;
  inscriptions : string;
  date_start : Z;
  date_end : Z
}.
End Artwork.

Module Pagination.
Record t := mk {
  total : Z;
  limit : Z;
  offset : Z;
  total_pages : Z;
  current_page : Z
}.
End Pagination.

Module ApiResponse.
Record t := mk {
  data : list Artwork.t;
  pagination : Pagination.t
}.
End ApiResponse.

(** The text of a notification.  Template strings are kept as templates
    applied to their arguments. *)
Inductive detail :=
| Text (s : string)
| OnlyAvailable (totalRecords : Z)        (* `Only ${totalRecords} available` *)
| SelectedRows (itemsSelected : Z)        (* `Selected ${itemsSelected} rows` *)
| SelectedIDs (ids : gset Z).             (* `Selected IDs: ${ids.join(', ')}` *)

Record toast := Toast {
  severity : string;
  summary : string;
  toastDetail : detail
}.

(** What a handler does to the outside world, in order. *)
Inductive effect :=
| Fetch (page rows : Z)       (* GET ...?page=${page + 1}&limit=${rows}&fields=... *)
| Console (label : string)    (* console.log / console.error *)
| Notify (t : toast).           (* toastRef.current.show(t) *)

(** The network reads of a trace, as (page, rows) pairs. *)
Fixpoint fetches (tr : list effect) : list (Z * Z) :=
  match tr with
  | [] => []
  | Fetch page rows :: tr' => (page, rows) :: fetches tr'
  | _ :: tr' => fetches tr'
  end.

(** The notifications of a trace. *)
Fixpoint toasts (tr : list effect) : list toast :=
  match tr with
  | [] => []
  | Notify t :: tr' => t :: toasts tr'
  | _ :: tr' => toasts tr'
  end.

(** The answer of the remote service to a read of [page] with [rows]
    records per page. *)
Definition Remote := Z → Z → option ApiResponse.t.

(** ** Component state: one field per [useState] *)

Record State := mkState {
  artworks : list Artwork.t;
  loading : bool;
  currentPage : Z;
  pageSize : Z;
  totalRecords : Z;
  totalPages : Z;
  selectedIds : gset Z;
  isAllSelected : bool;
  showDropdown : bool;
  inputValue : string
}.

Definition initialState : State :=
  {| artworks := []; loading := false; currentPage := 0; pageSize := 10;
     totalRecords := 0; totalPages := 0; selectedIds := ∅;
     isAllSelected := false; showDropdown := false; inputValue := "" |}.

Definition setArtworks (v : list Artwork.t) (s : State) : State :=
  mkState v (loading s) (currentPage s) (pageSize s) (totalRecords s)
    (totalPages s) (selectedIds s) (isAllSelected s) (showDropdown s) (inputValue s).
Definition setLoading (v : bool) (s : State) : State :=
  mkState (artworks s) v (currentPage s) (pageSize s) (totalRecords s)
    (totalPages s) (selectedIds s) (isAllSelected s) (showDropdown s) (inputValue s).
Definition setCurrentPage (v : Z) (s : State) : State :=
  mkState (artworks s) (loading s) v (pageSize s) (totalRecords s)
    (totalPages s) (selectedIds s) (isAllSelected s) (showDropdown s) (inputValue s).
Definition setPageSize (v : Z) (s : State) : State :=
  mkState (artworks s) (loading s) (currentPage s) v (totalRecords s)
    (totalPages s) (selectedIds s) (isAllSelected s) (showDropdown s) (inputValue s).
Definition setTotalRecords (v : Z) (s : State) : State :=
  mkState (artworks s) (loading s) (currentPage s) (pageSize s) v
    (totalPages s) (selectedIds s) (isAllSelected s) (showDropdown s) (inputValue s).
Definition setTotalPages (v : Z) (s : State) : State :=
  mkState (artworks s) (loading s) (currentPage s) (pageSize s) (totalRecords s)
    v (selectedIds s) (isAllSelected s) (showDropdown s) (inputValue s).
Definition setSelectedIds (v : gset Z) (s : State) : State :=
  mkState (artworks s) (loading s) (currentPage s) (pageSize s) (totalRecords s)
    (totalPages s) v (isAllSelected s) (showDropdown s) (inputValue s).
Definition setIsAllSelected (v : bool) (s : State) : State :=
  mkState (artworks s) (loading s) (currentPage s) (pageSize s) (totalRecords s)
    (totalPages s) (selectedIds s) v (showDropdown s) (inputValue s).
Definition setShowDropdown (v : bool) (s : State) : State :=
  mkState (artworks s) (loading s) (currentPage s) (pageSize s) (totalRecords s)
    (totalPages s) (selectedIds s) (isAllSelected s) v (inputValue s).
Definition setInputValue (v : string) (s : State) : State :=
  mkState (artworks s) (loading s) (currentPage s) (pageSize s) (totalRecords s)
    (totalPages s) (selectedIds s) (isAllSelected s) (showDropdown s) v.

(** Identifiers of a list of records: [rows.map(item => item.id)]. *)
Definition ids (rows : list Artwork.t) : list Z := Artwork.id <$> rows.

(** ** Handlers *)

(** [fetchData(page, rows)]: the read, then the console line on
    success.  [None] is the thrown 'Network request failed'. *)
Definition fetchData (remote : Remote) (page rows : Z)
  : option ApiResponse.t * list effect :=
  match remote page rows with
  | Some res => (Some res, [Fetch page rows; Console "Fetched artwork page:"])
  | None => (None, [Fetch page rows])
  end.

(** [updateSelectAllStatus(pageData)].  [selectedIds] is read from the
    closure [st]; the setter acts on the pending state [s]. *)
Definition updateSelectAllStatus (st : State) (pageData : list Artwork.t)
  (s : State) : State :=
  let pageIds := ids pageData in
  let allSelected :=
    (0 <? Z.of_nat (length pageIds)) && JS.every (JS.has (selectedIds st)) pageIds in
  setIsAllSelected allSelected s.

Definition loadFailed : toast :=
  Toast "error" "Error" (Text "Failed to load data").

(** [loadPage(page, rows)] *)
Definition loadPage (remote : Remote) (page rows : Z) (st : State)
  : State * list effect :=
  let s := setLoading true st in
  match fetchData remote page rows with
  | (Some data, tr) =>
      let s := setArtworks (ApiResponse.data data) s in
      let s := setCurrentPage page s in
      let s := setPageSize rows s in
      let s := setTotalRecords (Pagination.total (ApiResponse.pagination data)) s in
      let s := setTotalPages (Pagination.total_pages (ApiResponse.pagination data)) s in
      let s := updateSelectAllStatus st (ApiResponse.data data) s in
      (setLoading false s, tr)
  | (None, tr) =>
      (setLoading false s, tr ++ [Console "Error loading data:"; Notify loadFailed])
  end.

(** [handleCheckbox(id, checked)] *)
Definition handleCheckbox (id : Z) (checked : bool) (st : State)
  : State * list effect :=
  let updatedIds := selectedIds st in
  let updatedIds := if checked then JS.add id updatedIds else JS.delete id updatedIds in
  let s := setSelectedIds updatedIds st in
  let pageIds := ids (artworks st) in
  (setIsAllSelected (JS.every (JS.has updatedIds) pageIds) s, []).

(** [handleSelectAll(checked)]; the [forEach] is a left fold. *)
Definition handleSelectAll (checked : bool) (st : State) : State * list effect :=
  let updatedIds := selectedIds st in
  let pageIds := ids (artworks st) in
  let updatedIds :=
    foldl (λ acc id, if checked then JS.add id acc else JS.delete id acc)
      updatedIds pageIds in
  let s := setSelectedIds updatedIds st in
  (setIsAllSelected checked s, []).

(** *** Bulk selection *)

Definition itemsPerPage : Z := 50.

(** How the [while] loop of [selectRows] ends: it runs to completion
    with the local set and counter, or a [fetchData] throws.
    [OutOfFuel] is an artefact of the bounded recursion below and never
    occurs for the bound that [selectRows] uses
    (see [selectRows_loop_fuel]). *)
Inductive loopResult :=
| Completed (updatedIds : gset Z) (itemsSelected : Z)
| Thrown
| OutOfFuel.

(** The inner [for] loop over the first [itemsToTake] records of a
    page: [updatedIds.add(data.data[i].id); itemsSelected++]. *)
Fixpoint forAdd (rows : list Artwork.t) (updatedIds : gset Z) (itemsSelected : Z)
  : gset Z * Z :=
  match rows with
  | [] => (updatedIds, itemsSelected)
  | a :: rows' => forAdd rows' (JS.add (Artwork.id a) updatedIds) (itemsSelected + 1)
  end.

(** [while (itemsSelected < num) { ... }] *)
Fixpoint selectRows_loop (remote : Remote) (fuel : nat) (num : Z)
  (updatedIds : gset Z) (itemsSelected page : Z) : loopResult * list effect :=
  if itemsSelected <? num then
    match fuel with
    | O => (OutOfFuel, [])
    | S fuel' =>
        match fetchData remote page itemsPerPage with
        | (None, tr) => (Thrown, tr)
        | (Some data, tr) =>
            let len := Z.of_nat (length (ApiResponse.data data)) in
            let itemsToTake := Z.min (num - itemsSelected) len in
            let '(updatedIds, itemsSelected) :=
              forAdd (take (Z.to_nat itemsToTake) (ApiResponse.data data))
                updatedIds itemsSelected in
            if len <? itemsPerPage then (Completed updatedIds itemsSelected, tr)
            else
              let '(r, tr') :=
                selectRows_loop remote fuel' num updatedIds itemsSelected (page + 1) in
              (r, tr ++ tr')
        end
    end
  else (Completed updatedIds itemsSelected, []).

Definition invalidInput : toast :=
  Toast "warn" "Invalid input" (Text "Enter a valid number").
Definition tooManyRows (totalRecords : Z) : toast :=
  Toast "warn" "Too many rows" (OnlyAvailable totalRecords).
Definition selectionDone (itemsSelected : Z) : toast :=
  Toast "success" "Success" (SelectedRows itemsSelected).
Definition selectionFailed : toast :=
  Toast "error" "Error" (Text "Selection failed").

(** The statements after the [try]/[catch] of [selectRows]. *)
Definition selectRows_finally (s : State) : State :=
  setInputValue "" (setShowDropdown false (setLoading false s)).

(** [selectRows()].  The guard [!num || isNaN(num) || num <= 0] holds
    for [NaN] by its first disjunct; for a number, [!num] is [num === 0]
    and [isNaN(num)] is false.  Past the two guards [num] is a positive
    integer, and [num] iterations bound the loop. *)
Definition selectRows (remote : Remote) (st : State) : State * list effect :=
  match JS.parseInt (inputValue st) with
  | None => (st, [Notify invalidInput])
  | Some num =>
      if (num =? 0) || (num <=? 0) then (st, [Notify invalidInput])
      else if totalRecords st <? num then (st, [Notify (tooManyRows (totalRecords st))])
      else
        let s := setLoading true st in
        match selectRows_loop remote (Z.to_nat num) num (selectedIds st) 0 0 with
        | (Completed updatedIds itemsSelected, tr) =>
            let s := setSelectedIds updatedIds s in
            let s :=
              setIsAllSelected (JS.every (JS.has updatedIds) (ids (artworks st))) s in
            (selectRows_finally s, tr ++ [Notify (selectionDone itemsSelected)])
        | (Thrown, tr) =>
            (selectRows_finally s, tr ++ [Console "Selection error:"; Notify selectionFailed])
        | (OutOfFuel, tr) => (selectRows_finally s, tr)
        end
  end.

Definition noSelection : toast :=
  Toast "warn" "No selection" (Text "Select rows first").
Definition submitted (selected : gset Z) : toast :=
  Toast "success" "Submitted" (SelectedIDs selected).

(** [submitSelection()] *)
Definition submitSelection (st : State) : State * list effect :=
  if Z.of_nat (size (selectedIds st)) =? 0 then (st, [Notify noSelection])
  else
    (setInputValue "" (setShowDropdown false st), [Notify (submitted (selectedIds st))]).

(** ** The component as a transition system *)

(** User and lifecycle events.  Every event that reads the network
    carries the answers the service gives while it is handled. *)
Inductive event :=
| PageChange (remote : Remote) (page rows : Z)  (* onPage, and the mount effect loadPage(0, 10) *)
| RowCheckbox (id : Z) (checked : bool)         (* checkboxTemplate: onChange *)
| HeaderCheckbox (checked : bool)               (* header Checkbox: onChange *)
| ChevronClick                                  (* setShowDropdown(!showDropdown) *)
| InputChange (value : string)                  (* InputText: onChange *)
| SelectClick (remote : Remote)                 (* Select button, or Enter in the input *)
| SubmitClick.                                  (* Submit button *)

(** An event can fire only on an element that is rendered: a row
    checkbox exists for the displayed records, the popover with the
    input and the two buttons only while [showDropdown] holds. *)
Definition enabled (ev : event) (st : State) : Prop :=
  match ev with
  | RowCheckbox id _ => id ∈ ids (artworks st)
  | InputChange _ | SelectClick _ | SubmitClick => showDropdown st = true
  | PageChange _ _ _ | HeaderCheckbox _ | ChevronClick => True
  end.

Definition handle (ev : event) (st : State) : State * list effect :=
  match ev with
  | PageChange remote page rows => loadPage remote page rows st
  | RowCheckbox id checked => handleCheckbox id checked st
  | HeaderCheckbox checked => handleSelectAll checked st
  | ChevronClick => (setShowDropdown (negb (showDropdown st)) st, [])
  | InputChange value => (setInputValue value st, [])
  | SelectClick remote => selectRows remote st
  | SubmitClick => submitSelection st
  end.

Inductive reachable : State → Prop :=
| reachable_init : reachable initialState
| reachable_step st ev :
    reachable st → enabled ev st → reachable (handle ev st).1.

(** ** The remote collection *)

(** The records of page [page] (0-based) when the collection [ds] is
    cut into pages of [rows] records. *)
Definition pageOf (ds : list Artwork.t) (page rows : Z) : list Artwork.t :=
  take (Z.to_nat rows) (drop (Z.to_nat (page * rows)) ds).

(** A service that answers every read with the requested page of the
    collection [ds]. *)
Definition serves (remote : Remote) (ds : list Artwork.t) : Prop :=
  ∀ page rows, 0 ≤ page → 0 < rows →
    ∃ res, remote page rows = Some res ∧ ApiResponse.data res = pageOf ds page rows.

(** The service for a fixed collection, with the pagination block the
    API sends along. *)
Definition pagedRemote (ds : list Artwork.t) : Remote :=
  λ page rows,
    let total := Z.of_nat (length ds) in
    Some (ApiResponse.mk (pageOf ds page rows)
            (Pagination.mk total rows (page * rows)
               ((total + rows - 1) / rows) (page + 1))).

(** A record with the given identifier and no other information. *)
Definition artwork (id : Z) : Artwork.t :=
  Artwork.mk id "" "" "" "" 0 0.

(** A collection of [n] records with identifiers [1..n]. *)
Definition collection (n : nat) : list Artwork.t :=
  map (λ i, artwork (Z.of_nat i)) (seq 1 n).

(** The identifiers that one iteration of the loop of [selectRows]
    takes from page [page] when every earlier page was full:
    the first [min(num - 50 * page, page length)] of the page. *)
Definition front (ds : list Artwork.t) (num page : Z) : list Z :=
  let rows := pageOf ds page itemsPerPage in
  let itemsToTake := Z.min (num - itemsPerPage * page) (Z.of_nat (length rows)) in
  ids (take (Z.to_nat itemsToTake) rows).

(** Number of pages read when [num] records are asked of a collection of
    [len] records: up to the page that completes the count, or up to
    the first page that is not full, whichever comes first. *)
Definition pagesRead (num len : Z) : Z :=
  Z.min ((num + itemsPerPage - 1) / itemsPerPage) (len / itemsPerPage + 1).

(** A service that answers the first [n] pages of [ds] and fails
    afterwards. *)
Definition failingFrom (n : Z) (ds : list Artwork.t) : Remote :=
  λ page rows, if page <? n then pagedRemote ds page rows else None.

#[local] Arguments front : simpl never.

(** ** Handlers that wait for the service *)

(** [loadPage] and [selectRows] are [async].  What stands before their
    first [await] runs when the event is handled.  The setters that
    follow the reads run later, on the state of that later moment,
    with values computed from the closure [st] of the handler; other
    events may be handled in between.  The functions below give these
    later writes; [loadPage] and [selectRows] above are the case in
    which nothing happens in between ([loadPage_resume_spec],
    [selectRows_resume_spec]). *)
Definition loadPage_resume (remote : Remote) (page rows : Z) (st : State)
  : (State → State) * list effect :=
  match fetchData remote page rows with
  | (Some data, tr) =>
      (λ s,
         let s := setArtworks (ApiResponse.data data) s in
         let s := setCurrentPage page s in
         let s := setPageSize rows s in
         let s := setTotalRecords (Pagination.total (ApiResponse.pagination data)) s in
         let s := setTotalPages (Pagination.total_pages (ApiResponse.pagination data)) s in
         let s := updateSelectAllStatus st (ApiResponse.data data) s in
         setLoading false s,
       tr)
  | (None, tr) =>
      (setLoading false, tr ++ [Console "Error loading data:"; Notify loadFailed])
  end.

(** The two guards of [selectRows]: the number to select, or the
    warning to show. *)
Definition selectRows_validate (st : State) : Z + toast :=
  match JS.parseInt (inputValue st) with
  | None => inr invalidInput
  | Some num =>
      if (num =? 0) || (num <=? 0) then inr invalidInput
      else if totalRecords st <? num then inr (tooManyRows (totalRecords st))
      else inl num
  end.

Definition selectRows_resume (remote : Remote) (num : Z) (st : State)
  : (State → State) * list effect :=
  match selectRows_loop remote (Z.to_nat num) num (selectedIds st) 0 0 with
  | (Completed updatedIds itemsSelected, tr) =>
      (λ s,
         let s := setSelectedIds updatedIds s in
         let s :=
           setIsAllSelected (JS.every (JS.has updatedIds) (ids (artworks st))) s in
         selectRows_finally s,
       tr ++ [Notify (selectionDone itemsSelected)])
  | (Thrown, tr) =>
      (selectRows_finally, tr ++ [Console "Selection error:"; Notify selectionFailed])
  | (OutOfFuel, tr) => (selectRows_finally, tr)
  end.

(** The component with its handlers in flight: the state, and the
    writes of the handlers that are waiting for the service. *)
Definition Config : Type := State * list (State → State).

(** One thing happens: an event is handled up to its first [await]
    (to its end when it has none), or a waiting handler gets its
    answers and performs its writes. *)
Inductive astep : Config → Config → Prop :=
| astep_loadPage st ops remote page rows :
    astep (st, ops)
      (setLoading true st, ops ++ [(loadPage_resume remote page rows st).1])
| astep_selectRows st ops remote num :
    showDropdown st = true →
    selectRows_validate st = inl num →
    astep (st, ops)
      (setLoading true st, ops ++ [(selectRows_resume remote num st).1])
| astep_selectRows_invalid st ops t :
    showDropdown st = true →
    selectRows_validate st = inr t →
    astep (st, ops) (st, ops)
| astep_event st ops ev :
    (match ev with PageChange _ _ _ | SelectClick _ => False | _ => True end) →
    enabled ev st →
    astep (st, ops) ((handle ev st).1, ops)
| astep_resume st ops1 writes ops2 :
    astep (st, ops1 ++ writes :: ops2) (writes st, ops1 ++ ops2).

Inductive areachable : Config → Prop :=
| areachable_init : areachable (initialState, [])
| areachable_step c c' : areachable c → astep c c' → areachable c'.

(** The state in which a page change overtakes a bulk selection.
    Page 0 of 30 records is displayed, ten rows a page; '10' is typed
    and Select is clicked; while its read is in flight, the user goes
    to page 1; the page arrives; then the selection completes. *)
Definition raceState : State :=
  let remote := pagedRemote (collection 30) in
  let st1 := (loadPage remote 0 10 initialState).1 in
  let st2 := setInputValue "10" (setShowDropdown true st1) in
  let st3 := setLoading true st2 in
  let st4 := setLoading true st3 in
  (selectRows_resume remote 10 st2).1 ((loadPage_resume remote 1 10 st3).1 st4).

(** What the claim about the input calls numeric: the text of an
    integer from its first to its last character, an optional sign and
    then decimal digits only. *)
Fixpoint allDigits (s : string) : bool :=
  match s with
  | EmptyString => true
  | String c r => (48 <=? JS.byte c) && (JS.byte c <=? 57) && allDigits r
  end.

Definition isNumeral (input : string) : bool :=
  let digits :=
    match input with
    | String "-"%char r => r
    | String "+"%char r => r
    | _ => input
    end in
  match digits with
  | EmptyString => false
  | _ => allDigits digits
  end.

(** ** Rendering *)

(** [a || b] on strings: the empty string is the only falsy one. *)
Definition orString (a b : string) : string :=
  if decide (a = ""%string) then b else a.

(** What a cell of the table shows inside its [<span>]: a string, a
    number, or the template [`${a} - ${b}`] of two numbers. *)
Inductive cell :=
| CellText (s : string)
| CellNumber (n : Z)
| CellRange (a b : Z).

(** A number in a condition: zero is the only falsy integer. *)
Definition truthy (n : Z) : bool := negb (n =? 0).

Definition idTemplate (data : Artwork.t) : cell := CellNumber (Artwork.id data).

Definition titleTemplate (data : Artwork.t) : cell :=
  CellText (orString (Artwork.title data) "Untitled").

Definition originTemplate (data : Artwork.t) : cell :=
  CellText (orString (Artwork.place_of_origin data) "Unknown").

Definition dateTemplate (data : Artwork.t) : cell :=
  let date_start := Artwork.date_start data in
  let date_end := Artwork.date_end data in
  if truthy date_start && truthy date_end then
    if date_start =? date_end then CellNumber date_start
    else CellRange date_start date_end
  else if truthy date_start then CellNumber date_start
  else if truthy date_end then CellNumber date_end
  else CellText "Unknown".

Definition artistTemplate (data : Artwork.t) : cell :=
  CellText (orString (Artwork.artist_display data) "Unknown Artist").

(** [checkboxTemplate(data)]: the [checked] property of the checkbox of
    a row; its [onChange] is [handleCheckbox(data.id, e.checked || false)]. *)
Definition checkboxTemplate (data : Artwork.t) (st : State) : bool :=
  JS.has (selectedIds st) (Artwork.id data).

(** The line under the table,
    [`${size} row${size !== 1 ? 's' : ''} selected`], rendered only
    when [selectedIds.size > 0]: the count and the plural suffix. *)
Definition footer (st : State) : option (Z * string) :=
  let size := Z.of_nat (size (selectedIds st)) in
  if 0 <? size then Some (size, if negb (size =? 1) then "s"%string else ""%string)
  else None.

(** The [first] property of the [DataTable]: index of the first
    displayed record. *)
Definition first (st : State) : Z := currentPage st * pageSize st.

(** [onPageChange(event)] *)
Definition onPageChange (remote : Remote) (event_page event_rows : Z) (st : State)
  : State * list effect :=
  loadPage remote event_page event_rows st.


(** * Properties *)

(** ** Sets and arrays *)

Lemma has_true (s : gset Z) (x : Z) : JS.has s x = true ↔ x ∈ s.
Proof. unfold JS.has. by rewrite bool_decide_eq_true. Qed.

Lemma has_false (s : gset Z) (x : Z) : JS.has s x = false ↔ x ∉ s.
Proof. unfold JS.has. by rewrite bool_decide_eq_false. Qed.

Lemma every_has (s : gset Z) (l : list Z) :
  JS.every (JS.has s) l = true ↔ ∀ i, i ∈ l → i ∈ s.
Proof.
  unfold JS.every. rewrite forallb_forall. split.
  - intros H i Hi. apply has_true, H. by apply list_elem_of_In.
  - intros H i Hi. apply has_true, H. by apply list_elem_of_In.
Qed.

Lemma forEach_add (l : list Z) (s : gset Z) :
  foldl (λ acc id, JS.add id acc) s l = s ∪ list_to_set l.
Proof.
  revert s. induction l as [|x l IH]; intros s; simpl.
  - set_solver.
  - rewrite IH. unfold JS.add. set_solver.
Qed.

Lemma forEach_delete (l : list Z) (s : gset Z) :
  foldl (λ acc id, JS.delete id acc) s l = s ∖ list_to_set l.
Proof.
  revert s. induction l as [|x l IH]; intros s; simpl.
  - set_solver.
  - rewrite IH. unfold JS.delete. set_solver.
Qed.

Lemma forAdd_spec (rows : list Artwork.t) (updatedIds : gset Z) (itemsSelected : Z) :
  forAdd rows updatedIds itemsSelected =
    (updatedIds ∪ list_to_set (ids rows), itemsSelected + Z.of_nat (length rows)).
Proof.
  revert updatedIds itemsSelected.
  induction rows as [|a rows IH]; intros u n; simpl.
  - f_equal; [set_solver | lia].
  - rewrite IH. unfold JS.add. f_equal; [set_solver | lia].
Qed.

(** ** [parseInt] on a few inputs *)

Example parseInt_decimal : JS.parseInt "75" = Some 75.
Proof. reflexivity. Qed.

Example parseInt_prefix : JS.parseInt " 12abc" = Some 12.
Proof. reflexivity. Qed.

Example parseInt_hex : JS.parseInt "-0x1F" = Some (-31).
Proof. reflexivity. Qed.

Example parseInt_letters : JS.parseInt "abc" = None.
Proof. reflexivity. Qed.

Example parseInt_empty : JS.parseInt "" = None.
Proof. reflexivity. Qed.

(** U+00A0 (bytes 194, 160) is white space to [parseInt]. *)
Example parseInt_no_break_space :
  JS.parseInt (String (ascii_of_nat 194) (String (ascii_of_nat 160) "5")) = Some 5.
Proof. reflexivity. Qed.

(** 2^53 + 1 is not a Number: it is read as 2^53. *)
Example parseInt_rounds : JS.parseInt "9007199254740993" = Some 9007199254740992.
Proof. reflexivity. Qed.

(** ** Validation in [selectRows] *)

(** C5, as stated, fails: an input that is not numeric is turned down
    only when it does not start with a number.  The text '12abc' is not
    the text of a number, yet [parseInt] reads 12 from it: with 128
    records known, [selectRows] reads page 0, selects 12 rows and
    reports success. *)
Lemma selectRows_non_numeric_counterexample :
  let st := setInputValue "12abc" (setTotalRecords 128 initialState) in
  let run := selectRows (pagedRemote (collection 128)) st in
  isNumeral (inputValue st) = false
  ∧ fetches run.2 = [(0, itemsPerPage)]
  ∧ toasts run.2 = [selectionDone 12]
  ∧ selectedIds run.1 = list_to_set (ids (take 12 (collection 128)))
  ∧ selectedIds run.1 ≠ selectedIds st.
Proof.
  cbv zeta. split_and!; try reflexivity.
  intros Heq.
  assert (Hin : 1 ∈ selectedIds
            (selectRows (pagedRemote (collection 128))
               (setInputValue "12abc" (setTotalRecords 128 initialState))).1)
    by (apply (bool_decide_unpack _); vm_compute; exact I).
  rewrite Heq in Hin. revert Hin.
  apply (bool_decide_unpack _). vm_compute. exact I.
Qed.

(** C5, amended. When [parseInt] reads no number from the input (NaN:
    after leading white space and an optional sign the text does not
    start with a digit), or reads zero or a negative number,
    [selectRows] shows the 'Invalid input' warning and nothing else
    happens: the state is the one it started from (selection set, page
    state, flag, and every other field) and no page is read. *)
Theorem selectRows_invalid_input (remote : Remote) (st : State) :
  (JS.parseInt (inputValue st) = None
   ∨ ∃ num, JS.parseInt (inputValue st) = Some num ∧ num ≤ 0) →
  selectRows remote st = (st, [Notify invalidInput])
  ∧ severity invalidInput = "warn"%string
  ∧ fetches (selectRows remote st).2 = [].
Proof.
  intros H.
  assert (Hrun : selectRows remote st = (st, [Notify invalidInput])).
  { unfold selectRows. destruct H as [-> | (num & -> & Hle)]; [done|].
    replace (num <=? 0) with true by (symmetry; by apply Z.leb_le).
    by rewrite orb_true_r. }
  by rewrite Hrun.
Qed.

Lemma selectRows_invalid_input_witness :
  (let st := setInputValue "abc" (setTotalRecords 128 initialState) in
   selectRows (pagedRemote (collection 128)) st = (st, [Notify invalidInput])
   ∧ severity invalidInput = "warn"%string
   ∧ fetches (selectRows (pagedRemote (collection 128)) st).2 = [])
  ∧ (let st := setInputValue "0" (setTotalRecords 128 initialState) in
     selectRows (pagedRemote (collection 128)) st = (st, [Notify invalidInput])
     ∧ severity invalidInput = "warn"%string
     ∧ fetches (selectRows (pagedRemote (collection 128)) st).2 = [])
  ∧ (let st := setInputValue "-3 rows" (setTotalRecords 128 initialState) in
     selectRows (pagedRemote (collection 128)) st = (st, [Notify invalidInput])
     ∧ severity invalidInput = "warn"%string
     ∧ fetches (selectRows (pagedRemote (collection 128)) st).2 = []).
Proof.
  split_and!.
  - apply (selectRows_invalid_input (pagedRemote (collection 128))
             (setInputValue "abc" (setTotalRecords 128 initialState))).
    left. reflexivity.
  - apply (selectRows_invalid_input (pagedRemote (collection 128))
             (setInputValue "0" (setTotalRecords 128 initialState))).
    right. exists 0. split; [reflexivity | lia].
  - apply (selectRows_invalid_input (pagedRemote (collection 128))
             (setInputValue "-3 rows" (setTotalRecords 128 initialState))).
    right. exists (-3). split; [reflexivity | lia].
Defined.

(** C4. When the number entered exceeds [totalRecords], [selectRows]
    shows a single warning and nothing else happens: the state is the
    one it started from and no page is read.  For a positive number the
    warning is 'Too many rows'. *)
Theorem selectRows_too_many (remote : Remote) (st : State) (num : Z) :
  JS.parseInt (inputValue st) = Some num →
  totalRecords st < num →
  ∃ t, selectRows remote st = (st, [Notify t])
       ∧ severity t = "warn"%string
       ∧ (0 < num → t = tooManyRows (totalRecords st))
       ∧ fetches (selectRows remote st).2 = [].
Proof.
  intros Hparse Hgt. unfold selectRows. rewrite Hparse.
  destruct (Z.leb_spec num 0) as [Hle | Hpos].
  - rewrite orb_true_r. exists invalidInput. repeat split; [lia].
  - replace (num =? 0) with false by (symmetry; apply Z.eqb_neq; lia).
    replace (totalRecords st <? num) with true by (symmetry; by apply Z.ltb_lt).
    simpl. by exists (tooManyRows (totalRecords st)).
Qed.

Lemma selectRows_too_many_witness :
  let st := setInputValue "129" (setTotalRecords 128 initialState) in
  ∃ t, selectRows (pagedRemote (collection 128)) st = (st, [Notify t])
       ∧ severity t = "warn"%string
       ∧ (0 < 129 → t = tooManyRows (totalRecords st))
       ∧ fetches (selectRows (pagedRemote (collection 128)) st).2 = [].
Proof.
  apply (selectRows_too_many (pagedRemote (collection 128))
           (setInputValue "129" (setTotalRecords 128 initialState)) 129).
  - reflexivity.
  - simpl. lia.
Defined.

(** ** Row and header checkboxes *)

(** C6. Toggling the checkbox of a row twice, each time to the opposite
    of the row's current membership, gives back the selection set the
    first toggle started from. *)
Theorem handleCheckbox_toggle_twice (st : State) (id : Z) :
  let st1 := (handleCheckbox id (negb (JS.has (selectedIds st) id)) st).1 in
  let st2 := (handleCheckbox id (negb (JS.has (selectedIds st1) id)) st1).1 in
  selectedIds st2 = selectedIds st.
Proof.
  simpl. destruct (JS.has (selectedIds st) id) eqn:Hin; simpl.
  - apply has_true in Hin.
    replace (JS.has (JS.delete id (selectedIds st)) id) with false; simpl.
    + unfold JS.add, JS.delete. apply set_eq. intros x.
      destruct (decide (x = id)); set_solver.
    + symmetry. apply has_false. unfold JS.delete. set_solver.
  - apply has_false in Hin.
    replace (JS.has (JS.add id (selectedIds st)) id) with true; simpl.
    + unfold JS.add, JS.delete. set_solver.
    + symmetry. apply has_true. unfold JS.add. set_solver.
Qed.

(** C7. The header checkbox adds (checked) or removes (unchecked)
    exactly the identifiers of the displayed records: afterwards a
    displayed identifier is selected iff the box was checked, the
    membership of every other identifier is what it was, the flag is
    the checked value itself, no other field changes and nothing is
    read or shown. *)
Theorem handleSelectAll_current_page (checked : bool) (st : State) :
  let st' := (handleSelectAll checked st).1 in
  let pageIds : gset Z := list_to_set (ids (artworks st)) in
  selectedIds st' =
    (if checked then selectedIds st ∪ pageIds else selectedIds st ∖ pageIds)
  ∧ (∀ i, i ∈ ids (artworks st) → (i ∈ selectedIds st' ↔ checked = true))
  ∧ (∀ i, i ∉ ids (artworks st) → (i ∈ selectedIds st' ↔ i ∈ selectedIds st))
  ∧ isAllSelected st' = checked
  ∧ st' = setIsAllSelected checked (setSelectedIds (selectedIds st') st)
  ∧ (handleSelectAll checked st).2 = [].
Proof.
  assert (Hset : selectedIds (handleSelectAll checked st).1 =
    if checked then selectedIds st ∪ list_to_set (ids (artworks st))
    else selectedIds st ∖ list_to_set (ids (artworks st))).
  { simpl. destruct checked; [apply forEach_add | apply forEach_delete]. }
  cbv zeta. rewrite Hset. split_and!; try done.
  - intros i Hi. destruct checked; set_solver.
  - intros i Hi. destruct checked; set_solver.
  - unfold handleSelectAll. simpl.
    destruct checked; by rewrite ?forEach_add, ?forEach_delete.
Qed.

(** ** Submission *)

(** C9. With an empty selection set [submitSelection] shows the
    'No selection' warning and does nothing else: the whole state,
    including the popover and the text in the input, is unchanged, and
    the warning is the only effect. *)
Theorem submitSelection_empty (st : State) :
  selectedIds st = ∅ →
  submitSelection st = (st, [Notify noSelection])
  ∧ severity noSelection = "warn"%string.
Proof.
  intros Hempty. unfold submitSelection. rewrite Hempty.
  by rewrite size_empty.
Qed.

Lemma submitSelection_empty_witness :
  let st := setInputValue "75" (setShowDropdown true initialState) in
  submitSelection st = (st, [Notify noSelection])
  ∧ severity noSelection = "warn"%string.
Proof.
  apply (submitSelection_empty (setInputValue "75" (setShowDropdown true initialState))).
  reflexivity.
Defined.

(** ** Page navigation *)

(** C10. [loadPage] leaves the selection set alone whatever the page,
    the page size and the answer of the service.  The popover and the
    input are untouched as well and the loading flag ends cleared; when
    the read fails, the displayed records, the pagination data and the
    flag are kept too. *)
Theorem loadPage_keeps_selection (remote : Remote) (page rows : Z) (st : State) :
  let st' := (loadPage remote page rows st).1 in
  selectedIds st' = selectedIds st
  ∧ showDropdown st' = showDropdown st
  ∧ inputValue st' = inputValue st
  ∧ loading st' = false
  ∧ (remote page rows = None → st' = setLoading false st).
Proof.
  unfold loadPage, fetchData. destruct (remote page rows) as [res|]; simpl.
  - split_and!; try done.
  - split_and!; done.
Qed.

(** ** The "all selected" flag *)











(** ** Handlers in flight *)

Lemma loadPage_resume_spec remote page rows st :
  loadPage remote page rows st =
    ((loadPage_resume remote page rows st).1 (setLoading true st),
     (loadPage_resume remote page rows st).2).
Proof.
  unfold loadPage, loadPage_resume, fetchData.
  by destruct (remote page rows).
Qed.

Lemma selectRows_resume_spec remote st :
  selectRows remote st =
    match selectRows_validate st with
    | inl num =>
        ((selectRows_resume remote num st).1 (setLoading true st),
         (selectRows_resume remote num st).2)
    | inr t => (st, [Notify t])
    end.
Proof.
  unfold selectRows, selectRows_validate, selectRows_resume.
  destruct (JS.parseInt (inputValue st)) as [num|]; [|done].
  destruct ((num =? 0) || (num <=? 0)); [done|].
  destruct (totalRecords st <? num); [done|].
  by destruct (selectRows_loop _ _ _ _ _ _) as [[updatedIds itemsSelected| |] tr].
Qed.

(** Handling events one at a time is one way for the component to
    run: a state reached that way is reached with no handler left
    waiting. *)
Lemma reachable_areachable st : reachable st → areachable (st, []).
Proof.
  induction 1 as [|st ev _ IH Hev]; [apply areachable_init|].
  destruct ev as [remote page rows|id checked|checked| |value|remote|].
  - simpl. rewrite loadPage_resume_spec. cbn [fst].
    eapply areachable_step; [|apply (astep_resume _ [] _ [])].
    eapply areachable_step; [exact IH|]. apply astep_loadPage.
  - eapply areachable_step; [exact IH|]. by apply astep_event.
  - eapply areachable_step; [exact IH|]. by apply astep_event.
  - eapply areachable_step; [exact IH|]. by apply astep_event.
  - eapply areachable_step; [exact IH|]. by apply astep_event.
  - simpl. rewrite selectRows_resume_spec.
    destruct (selectRows_validate st) as [num|t] eqn:Hvalid; cbn [fst].
    + eapply areachable_step; [|apply (astep_resume _ [] _ [])].
      eapply areachable_step; [exact IH|]. by apply astep_selectRows.
    + exact IH.
  - eapply areachable_step; [exact IH|]. by apply astep_event.
Qed.

(** Without the one-at-a-time proviso the equivalence fails also on a
    page that is not empty: in [raceState] no handler is waiting,
    records 11 to 20 are displayed, records 1 to 10 are selected, and
    the flag is true, set by [selectRows] from the page of its own
    closure. *)
Lemma allSelected_race :
  areachable (raceState, [])
  ∧ ids (artworks raceState) = seqZ 11 10
  ∧ selectedIds raceState = list_to_set (seqZ 1 10)
  ∧ isAllSelected raceState = true.
Proof.
  split; [|split_and!; reflexivity].
  set (remote := pagedRemote (collection 30)).
  set (st1 := (loadPage remote 0 10 initialState).1).
  set (st2 := setInputValue "10" (setShowDropdown true st1)).
  set (st3 := setLoading true st2).
  set (st4 := setLoading true st3).
  assert (H1 : areachable (st1, [])).
  { apply reachable_areachable.
    apply (reachable_step initialState (PageChange remote 0 10));
      [apply reachable_init | exact I]. }
  assert (H2 : areachable (st2, [])).
  { apply (areachable_step (setShowDropdown true st1, [])).
    - apply (areachable_step _ _ H1). by apply (astep_event st1 [] ChevronClick).
    - by apply (astep_event (setShowDropdown true st1) [] (InputChange "10")). }
  assert (H3 : areachable (st3, [(selectRows_resume remote 10 st2).1])).
  { apply (areachable_step _ _ H2).
    by apply (astep_selectRows st2 [] remote 10). }
  assert (H4 : areachable (st4, [(selectRows_resume remote 10 st2).1;
                                 (loadPage_resume remote 1 10 st3).1])).
  { apply (areachable_step _ _ H3).
    apply (astep_loadPage st3 [(selectRows_resume remote 10 st2).1] remote 1 10). }
  assert (H5 : areachable ((loadPage_resume remote 1 10 st3).1 st4,
                           [(selectRows_resume remote 10 st2).1])).
  { apply (areachable_step _ _ H4).
    apply (astep_resume st4 [(selectRows_resume remote 10 st2).1]
             (loadPage_resume remote 1 10 st3).1 []). }
  apply (areachable_step _ _ H5).
  apply (astep_resume _ [] (selectRows_resume remote 10 st2).1 []).
Qed.

(** ** The loop of [selectRows] *)

Lemma fetches_app (tr1 tr2 : list effect) :
  fetches (tr1 ++ tr2) = fetches tr1 ++ fetches tr2.
Proof.
  induction tr1 as [|[page rows|label|t] tr1 IH]; simpl; by rewrite ?IH.
Qed.

Lemma toasts_app (tr1 tr2 : list effect) :
  toasts (tr1 ++ tr2) = toasts tr1 ++ toasts tr2.
Proof.
  induction tr1 as [|[page rows|label|t] tr1 IH]; simpl; by rewrite ?IH.
Qed.

(** The loop condition fails: the loop is over. *)
Lemma selectRows_loop_exit remote fuel num updatedIds itemsSelected page :
  num ≤ itemsSelected →
  selectRows_loop remote fuel num updatedIds itemsSelected page =
    (Completed updatedIds itemsSelected, []).
Proof.
  intros Hge. destruct fuel; simpl;
    by replace (itemsSelected <? num) with false by (symmetry; apply Z.ltb_ge; lia).
Qed.

(** One iteration of the loop body. *)
Lemma selectRows_loop_body remote fuel num updatedIds itemsSelected page :
  itemsSelected < num →
  selectRows_loop remote (S fuel) num updatedIds itemsSelected page =
    match remote page itemsPerPage with
    | None => (Thrown, [Fetch page itemsPerPage])
    | Some data =>
        let len := Z.of_nat (length (ApiResponse.data data)) in
        let itemsToTake := Z.min (num - itemsSelected) len in
        let rows := take (Z.to_nat itemsToTake) (ApiResponse.data data) in
        let updatedIds' := updatedIds ∪ list_to_set (ids rows) in
        let itemsSelected' := itemsSelected + itemsToTake in
        let tr := [Fetch page itemsPerPage; Console "Fetched artwork page:"] in
        if len <? itemsPerPage then (Completed updatedIds' itemsSelected', tr)
        else
          let next :=
            selectRows_loop remote fuel num updatedIds' itemsSelected' (page + 1) in
          (next.1, tr ++ next.2)
    end.
Proof.
  intros Hlt. simpl.
  replace (itemsSelected <? num) with true by (symmetry; by apply Z.ltb_lt).
  unfold fetchData. destruct (remote page itemsPerPage) as [data|]; [|done].
  rewrite forAdd_spec, length_take, Nat.min_l by lia.
  rewrite Z2Nat.id by lia.
  cbv zeta. destruct (_ <? itemsPerPage); [done|].
  by destruct (selectRows_loop _ _ _ _ _ _).
Qed.

(** The bound that [selectRows] passes is enough: every iteration that
    goes on to another one has taken at least one record. *)
Lemma selectRows_loop_fuel remote fuel num updatedIds itemsSelected page :
  num - itemsSelected ≤ Z.of_nat fuel →
  (selectRows_loop remote fuel num updatedIds itemsSelected page).1 ≠ OutOfFuel.
Proof.
  revert updatedIds itemsSelected page.
  induction fuel as [|fuel IH]; intros u i page Hfuel.
  - by rewrite selectRows_loop_exit by lia.
  - destruct (Z.lt_ge_cases i num) as [Hlt | Hge];
      [| by rewrite selectRows_loop_exit by lia].
    rewrite selectRows_loop_body by done.
    destruct (remote page itemsPerPage) as [data|]; [|done].
    cbv zeta. destruct (Z.ltb_spec (Z.of_nat (length (ApiResponse.data data)))
                          itemsPerPage) as [Hshort | Hfull]; [done|].
    simpl. apply IH. unfold itemsPerPage in Hfull. lia.
Qed.

(** The loop as [selectRows] starts it always ends by itself: it
    completes or a read throws. *)
Lemma selectRows_loop_ends remote num updatedIds :
  (selectRows_loop remote (Z.to_nat num) num updatedIds 0 0).1 ≠ OutOfFuel.
Proof. apply selectRows_loop_fuel. lia. Qed.

(** The loop shows no notification itself, and it throws exactly when
    one of its reads fails; that read is the last one. *)
Lemma selectRows_loop_toasts remote fuel num updatedIds itemsSelected page :
  toasts (selectRows_loop remote fuel num updatedIds itemsSelected page).2 = [].
Proof.
  revert updatedIds itemsSelected page.
  induction fuel as [|fuel IH]; intros u i page.
  - simpl. by destruct (i <? num).
  - destruct (Z.lt_ge_cases i num) as [Hlt | Hge];
      [| by rewrite selectRows_loop_exit by lia].
    rewrite selectRows_loop_body by done.
    destruct (remote page itemsPerPage) as [data|]; [|done].
    cbv zeta. destruct (_ <? itemsPerPage); [done|]. simpl. apply IH.
Qed.

Lemma selectRows_loop_thrown remote fuel num updatedIds itemsSelected page q :
  (q, itemsPerPage) ∈ fetches (selectRows_loop remote fuel num updatedIds itemsSelected page).2 →
  remote q itemsPerPage = None →
  (selectRows_loop remote fuel num updatedIds itemsSelected page).1 = Thrown.
Proof.
  revert updatedIds itemsSelected page.
  induction fuel as [|fuel IH]; intros u i page.
  - simpl. destruct (i <? num); simpl; intros Hq; by apply elem_of_nil in Hq.
  - destruct (Z.lt_ge_cases i num) as [Hlt | Hge].
    2:{ rewrite selectRows_loop_exit by lia. simpl. intros Hq.
        by apply elem_of_nil in Hq. }
    rewrite selectRows_loop_body by done.
    destruct (remote page itemsPerPage) as [data|] eqn:Hpage; [|done].
    cbv zeta. destruct (_ <? itemsPerPage); simpl.
    + intros Hq Hnone. apply list_elem_of_singleton in Hq. congruence.
    + intros Hq Hnone. apply elem_of_cons in Hq as [Hq | Hq]; [congruence|].
      by apply IH.
Qed.

Lemma selectRows_loop_failed_read remote fuel num updatedIds itemsSelected page :
  (selectRows_loop remote fuel num updatedIds itemsSelected page).1 = Thrown →
  ∃ q, (q, itemsPerPage) ∈ fetches (selectRows_loop remote fuel num updatedIds itemsSelected page).2
       ∧ remote q itemsPerPage = None.
Proof.
  revert updatedIds itemsSelected page.
  induction fuel as [|fuel IH]; intros u i page.
  - simpl. by destruct (i <? num).
  - destruct (Z.lt_ge_cases i num) as [Hlt | Hge];
      [| by rewrite selectRows_loop_exit by lia].
    rewrite selectRows_loop_body by done.
    destruct (remote page itemsPerPage) as [data|] eqn:Hpage.
    + cbv zeta. destruct (_ <? itemsPerPage); simpl; [done|].
      intros Hthrown. destruct (IH _ _ _ Hthrown) as (q' & Hq' & Hnone).
      exists q'. split; [|done]. by apply elem_of_cons; right.
    + intros _. exists page. split; [|done]. simpl. by apply list_elem_of_singleton.
Qed.

(** ** Bulk selection over a paged collection *)

Section PagedCollection.

Variable remote : Remote.
Variable ds : list Artwork.t.
Hypothesis Hserves : serves remote ds.

Lemma length_pageOf page :
  0 ≤ page →
  Z.of_nat (length (pageOf ds page itemsPerPage)) =
    Z.max 0 (Z.min itemsPerPage (Z.of_nat (length ds) - itemsPerPage * page)).
Proof.
  intros Hpage. unfold pageOf, itemsPerPage.
  rewrite length_take, length_drop. lia.
Qed.

(** Taking [min(r, page length)] records from a page is taking
    [min(r, 50)] records of the collection where the page starts. *)
Lemma take_pageOf r page :
  take (Z.to_nat (Z.min r (Z.of_nat (length (pageOf ds page itemsPerPage)))))
    (pageOf ds page itemsPerPage) =
  take (Z.to_nat (Z.min r itemsPerPage))
    (drop (Z.to_nat (page * itemsPerPage)) ds).
Proof.
  unfold pageOf.
  set (d := drop (Z.to_nat (page * itemsPerPage)) ds).
  set (n := Z.to_nat itemsPerPage).
  destruct (Z.le_gt_cases r (Z.of_nat (length (take n d)))) as [Hr | Hr].
  - rewrite Z.min_l by done. rewrite take_take. f_equal.
    rewrite length_take in Hr. lia.
  - rewrite Z.min_r by lia. rewrite Nat2Z.id, take_ge by done.
    rewrite length_take in Hr.
    destruct (Z.le_gt_cases r itemsPerPage).
    + rewrite Z.min_l by done. rewrite (take_ge d (Z.to_nat r)) by lia.
      apply take_ge. lia.
    + rewrite Z.min_r by lia. done.
Qed.

Lemma selectRows_loop_paged fuel num page updatedIds :
  0 ≤ page →
  itemsPerPage * page < num →
  itemsPerPage * page ≤ Z.of_nat (length ds) →
  num - itemsPerPage * page ≤ Z.of_nat fuel →
  let run := selectRows_loop remote fuel num updatedIds (itemsPerPage * page) page in
  let pages := seqZ page (pagesRead num (Z.of_nat (length ds)) - page) in
  let rest := take (Z.to_nat (num - itemsPerPage * page))
                (drop (Z.to_nat (itemsPerPage * page)) ds) in
  run.1 = Completed (updatedIds ∪ list_to_set (ids rest)) (Z.min num (Z.of_nat (length ds)))
  ∧ fetches run.2 = (λ p, (p, itemsPerPage)) <$> pages
  ∧ (list_to_set (ids rest) : gset Z) = ⋃ ((λ p, list_to_set (front ds num p)) <$> pages).
Proof.
  revert page updatedIds.
  induction fuel as [|fuel IH]; intros page u Hpage Hlt Hle Hfuel; [lia|].
  cbv zeta. rewrite selectRows_loop_body by done.
  destruct (Hserves page itemsPerPage Hpage) as (res & -> & Hdata); [done|].
  pose proof (length_pageOf page Hpage) as Hlen.
  pose proof (take_pageOf (num - itemsPerPage * page) page) as Htake.
  cbv zeta. rewrite Hdata, Htake.
  assert (Hfront : front ds num page =
    ids (take (Z.to_nat (Z.min (num - itemsPerPage * page) itemsPerPage))
           (drop (Z.to_nat (page * itemsPerPage)) ds))).
  { unfold front. cbv zeta. by rewrite Htake. }
  set (len := Z.of_nat (length (pageOf ds page itemsPerPage))) in *.
  rewrite (Z.mul_comm page itemsPerPage) in *.
  set (d := drop (Z.to_nat (itemsPerPage * page)) ds) in *.
  unfold itemsPerPage in *.
  set (total := Z.of_nat (length ds)) in *.
  assert (Hd : Z.of_nat (length d) = total - 50 * page).
  { subst d total. rewrite length_drop. lia. }
  destruct (Z.ltb_spec len 50) as [Hshort | Hfull].
  - (* a short page: the last one *)
    assert (Hpages : pagesRead num total - page = 1).
    { unfold pagesRead, itemsPerPage. Z.div_mod_to_equations. lia. }
    rewrite Hpages. 
    assert (Hrest : take (Z.to_nat ((num - 50 * page) `min` 50)) d =
                    take (Z.to_nat (num - 50 * page)) d).
    { destruct (Z.le_gt_cases (num - 50 * page) 50).
      - by rewrite Z.min_l.
      - rewrite !take_ge; [done | lia | lia]. }
    rewrite Hrest in *. change (seqZ page 1) with [page]. simpl. split_and!.
    + f_equal. lia.
    + done.
    + rewrite Hfront. set_solver.
  - assert (Hroom : 50 ≤ total - 50 * page) by lia.
    assert (Hlen50 : len = 50) by lia. clearbody len. clear Hlen. subst len.
    destruct (Z.le_gt_cases (num - 50 * page) 50) as [Hlast | Hmore].
    + (* a full page that completes the count *)
      assert (Hpages : pagesRead num total - page = 1).
      { unfold pagesRead, itemsPerPage. Z.div_mod_to_equations. lia. }
      rewrite Hpages. rewrite (Z.min_l (num - 50 * page) 50) in * by done.
      rewrite selectRows_loop_exit by lia.
      change (seqZ page 1) with [page]. simpl. split_and!.
      * f_equal. lia.
      * done.
      * rewrite Hfront. set_solver.
    + (* a full page, more to take *)
      assert (Hpages : 1 < pagesRead num total - page).
      { unfold pagesRead, itemsPerPage. Z.div_mod_to_equations. lia. }
      rewrite (Z.min_r (num - 50 * page) 50) in * by lia.
      replace (50 * page + 50) with (itemsPerPage * (page + 1))
        by (unfold itemsPerPage; lia).
      destruct (IH (page + 1)
                  (u ∪ list_to_set (ids (take (Z.to_nat 50) d))))
        as (Hres & Hfetch & Hunion); unfold itemsPerPage; try lia.
      rewrite seqZ_cons by lia.
      replace (Z.succ page) with (page + 1) by lia.
      replace (Z.pred (pagesRead num total - page))
        with (pagesRead num total - (page + 1)) by lia.
      assert (Hsplit : take (Z.to_nat (num - 50 * page)) d =
        take (Z.to_nat 50) d ++
        take (Z.to_nat (num - 50 * (page + 1)))
          (drop (Z.to_nat (50 * (page + 1))) ds)).
      { replace (Z.to_nat (num - 50 * page))
          with (Z.to_nat 50 + Z.to_nat (num - 50 * (page + 1)))%nat by lia.
        rewrite <- take_take_drop. f_equal. f_equal. subst d.
        rewrite drop_drop. f_equal. lia. }
      unfold itemsPerPage in *.
      cbn [fst snd]. rewrite Hres, fetches_app, Hfetch, !fmap_cons.
      cbn [union_list foldr]. rewrite Hfront, <- Hunion, Hsplit.
      unfold ids. rewrite fmap_app, list_to_set_app_L. split_and!.
      * f_equal. set_solver.
      * done.
      * done.
Qed.

(** [selectRows] on a valid input, against the paged collection. *)
Lemma selectRows_paged st num :
  JS.parseInt (inputValue st) = Some num →
  0 < num ≤ totalRecords st →
  let run := selectRows remote st in
  let pages := seqZ 0 (pagesRead num (Z.of_nat (length ds))) in
  let updatedIds := selectedIds st ∪ list_to_set (ids (take (Z.to_nat num) ds)) in
  run.1 = selectRows_finally
            (setIsAllSelected (JS.every (JS.has updatedIds) (ids (artworks st)))
               (setSelectedIds updatedIds st))
  ∧ fetches run.2 = (λ p, (p, itemsPerPage)) <$> pages
  ∧ toasts run.2 = [selectionDone (Z.min num (Z.of_nat (length ds)))]
  ∧ (list_to_set (ids (take (Z.to_nat num) ds)) : gset Z) =
      ⋃ ((λ p, list_to_set (front ds num p)) <$> pages).
Proof.
  intros Hparse [Hpos Hle]. cbv zeta. unfold selectRows. rewrite Hparse.
  replace (num =? 0) with false by (symmetry; apply Z.eqb_neq; lia).
  replace (num <=? 0) with false by (symmetry; apply Z.leb_gt; lia).
  replace (totalRecords st <? num) with false by (symmetry; apply Z.ltb_ge; lia).
  cbn [orb].
  destruct (selectRows_loop_paged (Z.to_nat num) num 0 (selectedIds st))
    as (Hres & Hfetch & Hunion); unfold itemsPerPage; try lia.
  change (itemsPerPage * 0) with 0 in *. change (Z.to_nat 0) with 0%nat in *.
  rewrite Z.sub_0_r in *. cbn [drop] in *.
  pose proof (selectRows_loop_toasts remote (Z.to_nat num) num (selectedIds st) 0 0)
    as Hquiet.
  destruct (selectRows_loop remote (Z.to_nat num) num (selectedIds st) 0 0)
    as [result tr]. cbn [fst snd] in *. subst result. cbn [fst snd].
  rewrite fetches_app, toasts_app, Hfetch, Hquiet, app_nil_r.
  split_and!; try done.
  rewrite Z.sub_0_r in Hunion. exact Hunion.
Qed.

End PagedCollection.

Lemma NoDup_ids_take (ds : list Artwork.t) (n : nat) :
  NoDup (ids ds) → NoDup (ids (take n ds)).
Proof.
  unfold ids. rewrite fmap_take. intros Hnodup.
  eapply sublist_NoDup; [exact Hnodup | apply sublist_take].
Qed.

Lemma size_selected_taken (selected : gset Z) (ds : list Artwork.t) (n : nat) :
  NoDup (ids ds) → (n ≤ length ds)%nat →
  (n ≤ size (selected ∪ list_to_set (ids (take n ds))))%nat.
Proof.
  intros Hnodup Hn.
  transitivity (size (list_to_set (ids (take n ds)) : gset Z)).
  - rewrite size_list_to_set by by apply NoDup_ids_take.
    unfold ids. rewrite length_fmap, length_take. lia.
  - apply subseteq_size. set_solver.
Qed.

(** C1. For a positive [num] not above the total record count, against
    a service that pages a collection [ds] of records with distinct
    identifiers, [selectRows] reads pages 0, 1, ... of 50 records, in
    that order, up to the page that completes the count and no
    further; from page [p] it takes the first
    [min(num - 50 * p, page length)] identifiers ([front]) and adds
    them to the selection; what it has added is the first [num]
    identifiers of the collection, [num] different ones; the resulting
    selection has at least [num] members; and the success
    notification reports [num] rows. *)
Theorem selectRows_first_rows (remote : Remote) (ds : list Artwork.t)
  (st : State) (num : Z) :
  serves remote ds →
  NoDup (ids ds) →
  totalRecords st = Z.of_nat (length ds) →
  JS.parseInt (inputValue st) = Some num →
  0 < num ≤ totalRecords st →
  let run := selectRows remote st in
  let pages := seqZ 0 ((num + itemsPerPage - 1) / itemsPerPage) in
  let taken := ids (take (Z.to_nat num) ds) in
  fetches run.2 = (λ p, (p, itemsPerPage)) <$> pages
  ∧ selectedIds run.1 =
      selectedIds st ∪ ⋃ ((λ p, list_to_set (front ds num p)) <$> pages)
  ∧ selectedIds run.1 = selectedIds st ∪ list_to_set taken
  ∧ Z.of_nat (length taken) = num
  ∧ NoDup taken
  ∧ num ≤ Z.of_nat (size (selectedIds run.1))
  ∧ toasts run.2 = [selectionDone num].
Proof.
  intros Hserves Hnodup Htotal Hparse Hnum.
  destruct (selectRows_paged remote ds Hserves st num Hparse Hnum)
    as (Hstate & Hfetch & Htoast & Hunion).
  assert (Hpages : pagesRead num (Z.of_nat (length ds)) =
                   (num + itemsPerPage - 1) / itemsPerPage).
  { unfold pagesRead, itemsPerPage. Z.div_mod_to_equations. lia. }
  rewrite Hpages in *. rewrite Z.min_l in Htoast by lia.
  cbv zeta. rewrite Hstate, Hfetch, Htoast. cbn [selectedIds selectRows_finally
    setInputValue setShowDropdown setLoading setIsAllSelected setSelectedIds].
  rewrite <- Hunion. split_and!; try done.
  - unfold ids. rewrite length_fmap, length_take. lia.
  - by apply NoDup_ids_take.
  - pose proof (size_selected_taken (selectedIds st) ds (Z.to_nat num) Hnodup). lia.
Qed.

Lemma selectRows_first_rows_witness :
  let remote := pagedRemote (collection 128) in
  let st := setInputValue "120" (setSelectedIds {[7; 900]} (setTotalRecords 128 initialState)) in
  let run := selectRows remote st in
  let pages := seqZ 0 ((120 + itemsPerPage - 1) / itemsPerPage) in
  let taken := ids (take (Z.to_nat 120) (collection 128)) in
  fetches run.2 = (λ p, (p, itemsPerPage)) <$> pages
  ∧ selectedIds run.1 =
      selectedIds st ∪ ⋃ ((λ p, list_to_set (front (collection 128) 120 p)) <$> pages)
  ∧ selectedIds run.1 = selectedIds st ∪ list_to_set taken
  ∧ Z.of_nat (length taken) = 120
  ∧ NoDup taken
  ∧ 120 ≤ Z.of_nat (size (selectedIds run.1))
  ∧ toasts run.2 = [selectionDone 120].
Proof.
  apply (selectRows_first_rows (pagedRemote (collection 128)) (collection 128)
           (setInputValue "120"
              (setSelectedIds {[7; 900]} (setTotalRecords 128 initialState))) 120).
  - intros page rows _ _. eexists. split; reflexivity.
  - apply (bool_decide_unpack _). vm_compute. exact I.
  - reflexivity.
  - reflexivity.
  - simpl. lia.
Defined.

(** C8. With 128 records in the collection, an empty selection and
    75 asked for, [selectRows] reads page 0 and page 1 and nothing
    else; both pages hold 50 records; all of page 0 and the first 25 of
    page 1 are taken; the selection ends with exactly 75 identifiers. *)
Theorem selectRows_75_of_128 (remote : Remote) (ds : list Artwork.t) (st : State) :
  serves remote ds →
  NoDup (ids ds) →
  length ds = 128%nat →
  totalRecords st = 128 →
  selectedIds st = ∅ →
  JS.parseInt (inputValue st) = Some 75 →
  let run := selectRows remote st in
  let page0 := pageOf ds 0 itemsPerPage in
  let page1 := pageOf ds 1 itemsPerPage in
  fetches run.2 = [(0, 50); (1, 50)]
  ∧ length page0 = 50%nat
  ∧ length page1 = 50%nat
  ∧ selectedIds run.1 = list_to_set (ids page0) ∪ list_to_set (ids (take 25 page1))
  ∧ size (selectedIds run.1) = 75%nat
  ∧ toasts run.2 = [selectionDone 75].
Proof.
  intros Hserves Hnodup Hlen Htotal Hempty Hparse.
  destruct (selectRows_paged remote ds Hserves st 75 Hparse ltac:(lia))
    as (Hstate & Hfetch & Htoast & Hunion).
  rewrite Hlen in *.
  change (pagesRead 75 (Z.of_nat 128)) with 2 in *.
  change (seqZ 0 2) with [0; 1] in *.
  assert (Hlen0 : length (pageOf ds 0 itemsPerPage) = 50%nat).
  { unfold pageOf, itemsPerPage. rewrite length_take, length_drop. lia. }
  assert (Hlen1 : length (pageOf ds 1 itemsPerPage) = 50%nat).
  { unfold pageOf, itemsPerPage. rewrite length_take, length_drop. lia. }
  assert (Hfront0 : front ds 75 0 = ids (pageOf ds 0 itemsPerPage)).
  { unfold front. cbv zeta. rewrite Hlen0. by rewrite take_ge by (rewrite Hlen0; lia). }
  assert (Hfront1 : front ds 75 1 = ids (take 25 (pageOf ds 1 itemsPerPage))).
  { unfold front. cbv zeta. by rewrite Hlen1. }
  cbv zeta. rewrite Hstate, Hfetch, Htoast.
  cbn [selectedIds selectRows_finally setInputValue setShowDropdown setLoading
         setIsAllSelected setSelectedIds].
  rewrite Hempty, (left_id_L ∅ (∪)). split_and!; try done.
  - rewrite Hunion. cbn [fmap list_fmap union_list foldr].
    rewrite Hfront0, Hfront1. set_solver.
  - rewrite size_list_to_set by by apply NoDup_ids_take.
    unfold ids. rewrite length_fmap, length_take. lia.
Qed.

Lemma selectRows_75_of_128_witness :
  let remote := pagedRemote (collection 128) in
  let st := setInputValue "75" (setTotalRecords 128 initialState) in
  let run := selectRows remote st in
  let page0 := pageOf (collection 128) 0 itemsPerPage in
  let page1 := pageOf (collection 128) 1 itemsPerPage in
  fetches run.2 = [(0, 50); (1, 50)]
  ∧ length page0 = 50%nat
  ∧ length page1 = 50%nat
  ∧ selectedIds run.1 = list_to_set (ids page0) ∪ list_to_set (ids (take 25 page1))
  ∧ size (selectedIds run.1) = 75%nat
  ∧ toasts run.2 = [selectionDone 75].
Proof.
  apply (selectRows_75_of_128 (pagedRemote (collection 128)) (collection 128)
           (setInputValue "75" (setTotalRecords 128 initialState))).
  - intros page rows _ _. eexists. split; reflexivity.
  - apply (bool_decide_unpack _). vm_compute. exact I.
  - reflexivity.
  - reflexivity.
  - reflexivity.
  - reflexivity.
Defined.

(** ** A read that fails during bulk selection *)

(** C2, as stated, fails. 75 rows are asked of a collection of 128; the
    read of page 0 succeeds and the read of page 1 fails.  The
    operation stops with the error notification, yet the selection set
    is the one from before: none of the 50 identifiers taken from
    page 0 is in it. *)
Lemma selectRows_partial_update_counterexample :
  let remote := failingFrom 1 (collection 128) in
  let st := setInputValue "75" (setTotalRecords 128 initialState) in
  let run := selectRows remote st in
  JS.parseInt (inputValue st) = Some 75
  ∧ 0 < 75 ≤ totalRecords st
  ∧ remote 0 itemsPerPage = pagedRemote (collection 128) 0 itemsPerPage
  ∧ remote 1 itemsPerPage = None
  ∧ fetches run.2 = [(0, itemsPerPage); (1, itemsPerPage)]
  ∧ toasts run.2 = [selectionFailed]
  ∧ selectedIds run.1 = selectedIds st
  ∧ ¬ (list_to_set (ids (pageOf (collection 128) 0 itemsPerPage)) ⊆ selectedIds run.1).
Proof.
  cbv zeta. split_and!; try reflexivity; try (simpl; lia).
  intros Hmerged.
  assert (Hin : 1 ∈ (list_to_set (ids (pageOf (collection 128) 0 itemsPerPage)) : gset Z))
    by (apply (bool_decide_unpack _); vm_compute; exact I).
  apply Hmerged in Hin. revert Hin.
  apply (bool_decide_unpack _). vm_compute. exact I.
Qed.

(** C2, amended. When one of the reads of [selectRows] fails, the
    operation stops with the 'Selection failed' error notification and
    the selection set is the one from before the operation: the
    identifiers collected from the pages read so far lived in a local
    copy and are dropped.  The flag and the page state are unchanged
    too; loading is cleared, the popover is closed and the input is
    emptied. *)
Theorem selectRows_failed_read (remote : Remote) (st : State) (num q : Z) :
  JS.parseInt (inputValue st) = Some num →
  0 < num ≤ totalRecords st →
  (q, itemsPerPage) ∈ fetches (selectRows remote st).2 →
  remote q itemsPerPage = None →
  selectedIds (selectRows remote st).1 = selectedIds st
  ∧ (selectRows remote st).1 = selectRows_finally st
  ∧ toasts (selectRows remote st).2 = [selectionFailed].
Proof.
  intros Hparse [Hpos Hle]. unfold selectRows. rewrite Hparse.
  replace (num =? 0) with false by (symmetry; apply Z.eqb_neq; lia).
  replace (num <=? 0) with false by (symmetry; apply Z.leb_gt; lia).
  replace (totalRecords st <? num) with false by (symmetry; apply Z.ltb_ge; lia).
  cbn [orb].
  pose proof (selectRows_loop_thrown remote (Z.to_nat num) num (selectedIds st) 0 0 q)
    as Hthrown.
  pose proof (selectRows_loop_toasts remote (Z.to_nat num) num (selectedIds st) 0 0)
    as Hquiet.
  destruct (selectRows_loop remote (Z.to_nat num) num (selectedIds st) 0 0)
    as [result tr]. cbn [fst snd] in *.
  intros Hq Hnone.
  assert (Hq' : (q, itemsPerPage) ∈ fetches tr).
  { destruct result; cbn [snd] in Hq; rewrite ?fetches_app in Hq;
      cbn [fetches] in Hq; by rewrite ?app_nil_r in Hq. }
  rewrite (Hthrown Hq' Hnone). cbn [fst snd].
  rewrite toasts_app, Hquiet. done.
Qed.

Lemma selectRows_failed_read_witness :
  let remote := failingFrom 1 (collection 128) in
  let st := setInputValue "75" (setTotalRecords 128 initialState) in
  selectedIds (selectRows remote st).1 = selectedIds st
  ∧ (selectRows remote st).1 = selectRows_finally st
  ∧ toasts (selectRows remote st).2 = [selectionFailed].
Proof.
  apply (selectRows_failed_read (failingFrom 1 (collection 128))
           (setInputValue "75" (setTotalRecords 128 initialState)) 75 1).
  - reflexivity.
  - simpl. lia.
  - apply (bool_decide_unpack _). vm_compute. exact I.
  - reflexivity.
Defined.

(** * Further properties of the handlers *)

(** ** Loading indicator *)

Lemma selectRows_loading remote st :
  loading st = false → loading (selectRows remote st).1 = false.
Proof.
  unfold selectRows. intros Hst.
  destruct (JS.parseInt (inputValue st)) as [num|]; [|done].
  destruct ((num =? 0) || (num <=? 0)); [done|].
  destruct (totalRecords st <? num); [done|].
  by destruct (selectRows_loop _ _ _ _ _ _) as [[updatedIds itemsSelected| |] tr].
Qed.

Lemma handle_idle ev st :
  loading st = false → loading (handle ev st).1 = false.
Proof.
  intros Hst. destruct ev; simpl; try done.
  - unfold loadPage, fetchData. by destruct (remote page rows).
  - by apply selectRows_loading.
  - unfold submitSelection. by destruct (_ =? 0).
Qed.

(** No handler leaves the loading indicator on: in every reachable
    state, that is once an event has been handled, [loading] is false. *)
Theorem reachable_not_loading (st : State) :
  reachable st → loading st = false.
Proof.
  induction 1 as [|st ev _ IH _].
  - reflexivity.
  - apply handle_idle. exact IH.
Qed.

Lemma reachable_not_loading_witness :
  loading (handle (SelectClick (failingFrom 0 (collection 3)))
             (handle (InputChange "2")
                (handle ChevronClick
                   (handle (PageChange (pagedRemote (collection 3)) 0 10)
                      initialState).1).1).1).1 = false.
Proof.
  apply reachable_not_loading.
  apply reachable_step; [|reflexivity].
  apply reachable_step; [|reflexivity].
  apply reachable_step; [|exact I].
  apply reachable_step; [|exact I].
  apply reachable_init.
Defined.

(** ** Page navigation *)

(** A page change whose read fails changes nothing at all in a state
    that is not loading (as every reachable state is): the component is
    in the state it was in, the read was the only one, and the
    'Failed to load data' error is the only notification. *)
Theorem onPageChange_failure (remote : Remote) (page rows : Z) (st : State) :
  loading st = false →
  remote page rows = None →
  (onPageChange remote page rows st).1 = st
  ∧ fetches (onPageChange remote page rows st).2 = [(page, rows)]
  ∧ toasts (onPageChange remote page rows st).2 = [loadFailed].
Proof.
  intros Hreach Hnone.
  unfold onPageChange, loadPage, fetchData. rewrite Hnone. simpl.
  split_and!; try done. destruct st; simpl in *. by subst.
Qed.

Lemma onPageChange_failure_witness :
  let remote := failingFrom 1 (collection 30) in
  let st := (handle (PageChange (pagedRemote (collection 30)) 0 10) initialState).1 in
  (onPageChange remote 1 10 st).1 = st
  ∧ fetches (onPageChange remote 1 10 st).2 = [(1, 10)]
  ∧ toasts (onPageChange remote 1 10 st).2 = [loadFailed].
Proof.
  apply (onPageChange_failure (failingFrom 1 (collection 30)) 1 10
           (handle (PageChange (pagedRemote (collection 30)) 0 10) initialState).1).
  - reflexivity.
  - reflexivity.
Defined.

(** A page change whose read succeeds displays the answer: the records
    and the totals are those of the response, the page index and size
    are the requested ones, nothing is notified, and the header
    checkbox is checked iff the new page is not empty and all of its
    identifiers were already selected. *)
Theorem onPageChange_success (remote : Remote) (page rows : Z) (st : State)
  (res : ApiResponse.t) :
  remote page rows = Some res →
  let st' := (onPageChange remote page rows st).1 in
  artworks st' = ApiResponse.data res
  ∧ currentPage st' = page
  ∧ pageSize st' = rows
  ∧ totalRecords st' = Pagination.total (ApiResponse.pagination res)
  ∧ totalPages st' = Pagination.total_pages (ApiResponse.pagination res)
  ∧ (isAllSelected st' = true ↔
       ApiResponse.data res ≠ [] ∧ ∀ i, i ∈ ids (ApiResponse.data res) → i ∈ selectedIds st)
  ∧ fetches (onPageChange remote page rows st).2 = [(page, rows)]
  ∧ toasts (onPageChange remote page rows st).2 = [].
Proof.
  intros Hres. unfold onPageChange, loadPage, fetchData. rewrite Hres. simpl.
  split_and!; try done.
  rewrite andb_true_iff, every_has. unfold ids.
  destruct (ApiResponse.data res); simpl; split; intros [Hne Hall]; try done.
Qed.

Lemma onPageChange_success_witness :
  let remote := pagedRemote (collection 30) in
  let st := setSelectedIds {[11; 12]} initialState in
  let res := ApiResponse.mk (pageOf (collection 30) 1 10)
               (Pagination.mk 30 10 10 3 2) in
  let st' := (onPageChange remote 1 10 st).1 in
  artworks st' = ApiResponse.data res
  ∧ currentPage st' = 1
  ∧ pageSize st' = 10
  ∧ totalRecords st' = Pagination.total (ApiResponse.pagination res)
  ∧ totalPages st' = Pagination.total_pages (ApiResponse.pagination res)
  ∧ (isAllSelected st' = true ↔
       ApiResponse.data res ≠ [] ∧ ∀ i, i ∈ ids (ApiResponse.data res) → i ∈ selectedIds st)
  ∧ fetches (onPageChange remote 1 10 st).2 = [(1, 10)]
  ∧ toasts (onPageChange remote 1 10 st).2 = [].
Proof.
  apply (onPageChange_success (pagedRemote (collection 30)) 1 10
           (setSelectedIds {[11; 12]} initialState)
           (ApiResponse.mk (pageOf (collection 30) 1 10) (Pagination.mk 30 10 10 3 2))).
  reflexivity.
Defined.

(** Against a service that pages the collection [ds], a page change
    displays the [pageSize] records that start at index [first] of the
    collection; their number is [min(rows, total - page * rows)] as
    long as the page starts inside the collection. *)
Theorem onPageChange_window (remote : Remote) (ds : list Artwork.t)
  (page rows : Z) (st : State) :
  serves remote ds →
  0 ≤ page →
  0 < rows →
  let st' := (onPageChange remote page rows st).1 in
  first st' = page * rows
  ∧ artworks st' = take (Z.to_nat (pageSize st')) (drop (Z.to_nat (first st')) ds)
  ∧ (page * rows ≤ Z.of_nat (length ds) →
       Z.of_nat (length (artworks st')) = Z.min rows (Z.of_nat (length ds) - page * rows)).
Proof.
  intros Hserves Hpage Hrows.
  destruct (Hserves page rows Hpage Hrows) as (res & Hres & Hdata).
  unfold onPageChange, loadPage, fetchData, first. rewrite Hres. simpl.
  rewrite Hdata. unfold pageOf. split_and!; try done.
  intros Hin. rewrite length_take, length_drop. nia.
Qed.

Lemma onPageChange_window_witness :
  let st' := (onPageChange (pagedRemote (collection 128)) 6 20 initialState).1 in
  first st' = 6 * 20
  ∧ artworks st' =
      take (Z.to_nat (pageSize st')) (drop (Z.to_nat (first st')) (collection 128))
  ∧ (6 * 20 ≤ Z.of_nat (length (collection 128)) →
       Z.of_nat (length (artworks st')) =
         Z.min 20 (Z.of_nat (length (collection 128)) - 6 * 20)).
Proof.
  apply (onPageChange_window (pagedRemote (collection 128)) (collection 128) 6 20
           initialState).
  - intros page rows _ _. eexists. split; reflexivity.
  - lia.
  - lia.
Defined.

(** ** Row checkboxes *)

(** After [handleCheckbox(id, checked)] the identifier is selected iff
    [checked], so the checkbox of its row renders as it was set; the
    membership of every other identifier, the displayed records and the
    pagination data are untouched, and nothing is read or notified. *)
Theorem handleCheckbox_sets_row (id : Z) (checked : bool) (st : State) :
  let st' := (handleCheckbox id checked st).1 in
  (id ∈ selectedIds st' ↔ checked = true)
  ∧ (∀ data, Artwork.id data = id → checkboxTemplate data st' = checked)
  ∧ (∀ j, j ≠ id → (j ∈ selectedIds st' ↔ j ∈ selectedIds st))
  ∧ st' = setIsAllSelected (isAllSelected st') (setSelectedIds (selectedIds st') st)
  ∧ (handleCheckbox id checked st).2 = [].
Proof.
  assert (Hid : id ∈ selectedIds (handleCheckbox id checked st).1 ↔ checked = true).
  { simpl. unfold JS.add, JS.delete. destruct checked; set_solver. }
  cbv zeta. split_and!; try done.
  - intros data <-. unfold checkboxTemplate.
    destruct checked.
    + by apply has_true, Hid.
    + apply has_false. rewrite Hid. done.
  - intros j Hj. simpl. unfold JS.add, JS.delete. destruct checked; set_solver.
Qed.

(** Setting the checkbox of a row to the value it already has changes
    nothing further: handling the same [handleCheckbox(id, checked)]
    twice gives the state that handling it once gives. *)
Theorem handleCheckbox_idempotent (id : Z) (checked : bool) (st : State) :
  (handleCheckbox id checked (handleCheckbox id checked st).1).1 =
  (handleCheckbox id checked st).1.
Proof.
  unfold handleCheckbox. cbn.
  assert (Hset : (if checked
                  then JS.add id (if checked then JS.add id (selectedIds st)
                                  else JS.delete id (selectedIds st))
                  else JS.delete id (if checked then JS.add id (selectedIds st)
                                     else JS.delete id (selectedIds st))) =
                 (if checked then JS.add id (selectedIds st)
                  else JS.delete id (selectedIds st))).
  { unfold JS.add, JS.delete. destruct checked; set_solver. }
  by rewrite Hset.
Qed.

(** The checkboxes of two different rows can be set in either order:
    the resulting state is the same. *)
Theorem handleCheckbox_commute (id1 id2 : Z) (checked1 checked2 : bool) (st : State) :
  id1 ≠ id2 →
  (handleCheckbox id2 checked2 (handleCheckbox id1 checked1 st).1).1 =
  (handleCheckbox id1 checked1 (handleCheckbox id2 checked2 st).1).1.
Proof.
  intros Hne. unfold handleCheckbox. cbn.
  assert (Hset : (if checked2
                  then JS.add id2 (if checked1 then JS.add id1 (selectedIds st)
                                   else JS.delete id1 (selectedIds st))
                  else JS.delete id2 (if checked1 then JS.add id1 (selectedIds st)
                                      else JS.delete id1 (selectedIds st))) =
                 (if checked1
                  then JS.add id1 (if checked2 then JS.add id2 (selectedIds st)
                                   else JS.delete id2 (selectedIds st))
                  else JS.delete id1 (if checked2 then JS.add id2 (selectedIds st)
                                      else JS.delete id2 (selectedIds st)))).
  { unfold JS.add, JS.delete. destruct checked1, checked2; set_solver. }
  by rewrite Hset.
Qed.

Lemma handleCheckbox_commute_witness :
  let st := (handle (PageChange (pagedRemote (collection 5)) 0 10) initialState).1 in
  (handleCheckbox 2 false (handleCheckbox 1 true st).1).1 =
  (handleCheckbox 1 true (handleCheckbox 2 false st).1).1.
Proof.
  apply (handleCheckbox_commute 1 2 true false
           (handle (PageChange (pagedRemote (collection 5)) 0 10) initialState).1).
  lia.
Defined.

(** ** Header checkbox *)

(** Checking the header checkbox and then unchecking it does not bring
    the selection back: every identifier of the displayed page is
    deselected, also those that were selected before.  The selection is
    the earlier one only if no displayed record was selected. *)
Theorem handleSelectAll_check_uncheck (st : State) :
  let st' := (handleSelectAll false (handleSelectAll true st).1).1 in
  selectedIds st' = selectedIds st ∖ list_to_set (ids (artworks st))
  ∧ (selectedIds st' = selectedIds st ↔
       ∀ i, i ∈ ids (artworks st) → i ∉ selectedIds st).
Proof.
  assert (Hset : selectedIds (handleSelectAll false (handleSelectAll true st).1).1 =
                 selectedIds st ∖ list_to_set (ids (artworks st))).
  { simpl. rewrite forEach_delete, forEach_add. set_solver. }
  cbv zeta. rewrite Hset. split; [done|]. split.
  - intros Heq i Hi Hsel. set_solver.
  - intros Hnone. apply set_eq. intros x. set_solver.
Qed.

(** The header checkbox is idempotent: handling the same
    [handleSelectAll(checked)] twice gives the state that handling it
    once gives. *)
Theorem handleSelectAll_idempotent (checked : bool) (st : State) :
  (handleSelectAll checked (handleSelectAll checked st).1).1 =
  (handleSelectAll checked st).1.
Proof.
  unfold handleSelectAll. cbn.
  destruct checked.
  - rewrite !forEach_add.
    replace (selectedIds st ∪ list_to_set (ids (artworks st))
               ∪ list_to_set (ids (artworks st)))
      with (selectedIds st ∪ list_to_set (ids (artworks st))) by set_solver.
    done.
  - rewrite !forEach_delete.
    replace (selectedIds st ∖ list_to_set (ids (artworks st))
               ∖ list_to_set (ids (artworks st)))
      with (selectedIds st ∖ list_to_set (ids (artworks st))) by set_solver.
    done.
Qed.

(** The selection outlives navigation: after the header checkbox of a
    non-empty page has been checked, the user may go to any other page
    (whether that read succeeds or fails); when the same records are
    displayed again, the header checkbox is checked. *)
Theorem handleSelectAll_survives_navigation (away back : Remote)
  (page1 rows1 page2 rows2 : Z) (res : ApiResponse.t) (st : State) :
  artworks st ≠ [] →
  back page2 rows2 = Some res →
  ApiResponse.data res = artworks st →
  let st1 := (handleSelectAll true st).1 in
  let st2 := (onPageChange away page1 rows1 st1).1 in
  let st3 := (onPageChange back page2 rows2 st2).1 in
  isAllSelected st3 = true
  ∧ selectedIds st3 = selectedIds st ∪ list_to_set (ids (artworks st)).
Proof.
  intros Hne Hback Hdata. cbv zeta.
  assert (Hsel : selectedIds (onPageChange away page1 rows1 (handleSelectAll true st).1).1
                 = selectedIds st ∪ list_to_set (ids (artworks st))).
  { unfold onPageChange, loadPage, fetchData.
    destruct (away page1 rows1); simpl; apply forEach_add. }
  unfold onPageChange at 1 3. unfold loadPage, fetchData. rewrite Hback.
  cbn [fst snd selectedIds isAllSelected setLoading setArtworks setCurrentPage
         setPageSize setTotalRecords setTotalPages updateSelectAllStatus
         setIsAllSelected].
  rewrite Hsel, Hdata. split; [|done].
  apply andb_true_iff. split.
  - unfold ids. destruct (artworks st); [done|]. reflexivity.
  - apply every_has. intros i Hi. set_solver.
Qed.

Lemma handleSelectAll_survives_navigation_witness :
  let remote := pagedRemote (collection 30) in
  let res := ApiResponse.mk (pageOf (collection 30) 0 10) (Pagination.mk 30 10 0 3 1) in
  let st := (handle (PageChange remote 0 10) initialState).1 in
  let st1 := (handleSelectAll true st).1 in
  let st2 := (onPageChange (failingFrom 0 (collection 30)) 1 10 st1).1 in
  let st3 := (onPageChange remote 0 10 st2).1 in
  isAllSelected st3 = true
  ∧ selectedIds st3 = selectedIds st ∪ list_to_set (ids (artworks st)).
Proof.
  apply (handleSelectAll_survives_navigation (failingFrom 0 (collection 30))
           (pagedRemote (collection 30)) 1 10 0 10
           (ApiResponse.mk (pageOf (collection 30) 0 10) (Pagination.mk 30 10 0 3 1))
           (handle (PageChange (pagedRemote (collection 30)) 0 10) initialState).1).
  - simpl. discriminate.
  - reflexivity.
  - reflexivity.
Defined.

(** ** Submission and the selection count *)

(** [submitSelection] never touches the selection, the flag or the
    page; it shows exactly one notification and reads nothing.  The
    notification is the warning exactly when the selection is empty;
    otherwise it is the success notification carrying the whole
    selection, the popover is closed and the input is emptied. *)
Theorem submitSelection_outcome (st : State) :
  let run := submitSelection st in
  selectedIds run.1 = selectedIds st
  ∧ isAllSelected run.1 = isAllSelected st
  ∧ artworks run.1 = artworks st
  ∧ fetches run.2 = []
  ∧ ∃ t, run.2 = [Notify t]
         ∧ (t = noSelection ↔ selectedIds st = ∅)
         ∧ (selectedIds st ≠ ∅ →
              t = submitted (selectedIds st)
              ∧ run.1 = setInputValue "" (setShowDropdown false st)).
Proof.
  cbv zeta. unfold submitSelection.
  destruct (Z.eqb_spec (Z.of_nat (size (selectedIds st))) 0) as [Hzero | Hpos].
  - assert (Hempty : selectedIds st = ∅).
    { apply leibniz_equiv, size_empty_iff. lia. }
    simpl. split_and!; try done. exists noSelection. split_and!; done.
  - assert (Hne : selectedIds st ≠ ∅).
    { intros Hempty. rewrite Hempty, size_empty in Hpos. done. }
    simpl. split_and!; try done. exists (submitted (selectedIds st)).
    split_and!; done.
Qed.

(** The line with the selection count is rendered exactly when Submit
    would go through; it then shows the size of the selection, with
    the singular 'row' exactly for one selected row. *)
Theorem footer_matches_submit (st : State) :
  (footer st = None ↔ toasts (submitSelection st).2 = [noSelection])
  ∧ (∀ n suffix, footer st = Some (n, suffix) →
       n = Z.of_nat (size (selectedIds st))
       ∧ 0 < n
       ∧ (suffix = ""%string ↔ n = 1)
       ∧ (suffix = "s"%string ↔ n ≠ 1)
       ∧ toasts (submitSelection st).2 = [submitted (selectedIds st)]).
Proof.
  unfold footer, submitSelection. cbv zeta.
  destruct (Z.eqb_spec (Z.of_nat (size (selectedIds st))) 0) as [Hzero | Hpos].
  - rewrite Hzero. simpl. split; [done|]. intros n suffix Hsome. discriminate.
  - replace (0 <? Z.of_nat (size (selectedIds st))) with true
      by (symmetry; apply Z.ltb_lt; lia).
    simpl. split; [split; discriminate|].
    intros n suffix [= <- <-]. split_and!; try done; try lia.
    + destruct (Z.eqb_spec (Z.of_nat (size (selectedIds st))) 1); simpl;
        split; (done || lia || discriminate).
    + destruct (Z.eqb_spec (Z.of_nat (size (selectedIds st))) 1); simpl;
        split; (done || lia || discriminate).
Qed.

(** ** The period column *)

(** [dateTemplate] shows 'Unknown' exactly when both dates are zero.
    A number it shows is never zero and is one of the two dates; a
    range is shown only for two different non-zero dates, start first. *)
Theorem dateTemplate_cases (data : Artwork.t) :
  (dateTemplate data = CellText "Unknown" ↔
     Artwork.date_start data = 0 ∧ Artwork.date_end data = 0)
  ∧ (∀ n, dateTemplate data = CellNumber n →
       n ≠ 0 ∧ (n = Artwork.date_start data ∨ n = Artwork.date_end data)
       ∧ (Artwork.date_start data = 0 ∨ Artwork.date_end data = 0
          ∨ Artwork.date_start data = Artwork.date_end data))
  ∧ (∀ a b, dateTemplate data = CellRange a b →
       a = Artwork.date_start data ∧ b = Artwork.date_end data
       ∧ a ≠ 0 ∧ b ≠ 0 ∧ a ≠ b).
Proof.
  unfold dateTemplate, truthy. cbv zeta.
  destruct (Z.eqb_spec (Artwork.date_start data) 0) as [Hs | Hs];
    destruct (Z.eqb_spec (Artwork.date_end data) 0) as [He | He]; simpl.
  - split_and!; [done | intros n Heq; discriminate | intros a b Heq; discriminate].
  - split_and!.
    + split; [discriminate | intros [_ ?]; done].
    + intros n [= <-]. split_and!; auto.
    + intros a b Heq; discriminate.
  - split_and!.
    + split; [discriminate | intros [? _]; done].
    + intros n [= <-]. split_and!; auto.
    + intros a b Heq; discriminate.
  - destruct (Z.eqb_spec (Artwork.date_start data) (Artwork.date_end data)) as [Heq | Hneq].
    + split_and!.
      * split; [discriminate | intros [? _]; done].
      * intros n [= <-]. split_and!; auto.
      * intros a b Hab; discriminate.
    + split_and!.
      * split; [discriminate | intros [? _]; done].
      * intros n Hn; discriminate.
      * intros a b [= <- <-]. split_and!; done.
Qed.

(** ** Bulk selection against any service *)

Lemma size_union_list (s : gset Z) (l : list Z) :
  (size (s ∪ list_to_set l) ≤ size s + length l)%nat.
Proof.
  revert s. induction l as [|x l IH]; intros s; simpl.
  - by rewrite (right_id_L ∅ (∪)), Nat.add_0_r.
  - replace (s ∪ ({[x]} ∪ list_to_set l)) with ((s ∪ {[x]}) ∪ list_to_set l)
      by set_solver.
    specialize (IH (s ∪ {[x]})).
    assert (size (s ∪ {[x]}) ≤ size s + 1)%nat.
    { rewrite size_union_alt.
      assert (size ({[x]} ∖ s : gset Z) ≤ size ({[x]} : gset Z))%nat
        by (apply subseteq_size; set_solver).
      rewrite size_singleton in *. lia. }
    lia.
Qed.

(** The reads of the loop are for consecutive pages, 50 records each,
    and each page after the first is read only after 50 more records
    have been taken. *)
Lemma selectRows_loop_reads remote fuel num updatedIds itemsSelected page :
  ∃ k, 0 ≤ k
       ∧ (0 < k → itemsPerPage * (k - 1) < num - itemsSelected)
       ∧ fetches (selectRows_loop remote fuel num updatedIds itemsSelected page).2 =
           (λ p, (p, itemsPerPage)) <$> seqZ page k.
Proof.
  revert updatedIds itemsSelected page.
  induction fuel as [|fuel IH]; intros u i page.
  - exists 0. simpl. by destruct (i <? num).
  - destruct (Z.lt_ge_cases i num) as [Hlt | Hge].
    2:{ exists 0. by rewrite selectRows_loop_exit by lia. }
    rewrite selectRows_loop_body by done.
    destruct (remote page itemsPerPage) as [data|].
    2:{ exists 1. unfold itemsPerPage. split_and!; [lia | lia | done]. }
    cbv zeta.
    destruct (Z.ltb_spec (Z.of_nat (length (ApiResponse.data data))) itemsPerPage)
      as [Hshort | Hfull].
    { exists 1. unfold itemsPerPage. split_and!; [lia | lia | done]. }
    match goal with
    | |- context [selectRows_loop remote fuel num ?u' ?i' ?p'] =>
        destruct (IH u' i' p') as (k & Hk & Hbound & Hfetch)
    end.
    exists (k + 1). cbn [fst snd]. rewrite fetches_app, Hfetch.
    unfold itemsPerPage in *. split_and!; [lia | intros _; lia |].
    rewrite (seqZ_cons page (k + 1)) by lia.
    replace (Z.succ page) with (page + 1) by lia.
    replace (Z.pred (k + 1)) with k by lia. done.
Qed.

(** What a completed loop hands back: the set it started from with
    more identifiers in it, at most as many as were counted, and a
    count that does not pass [num]. *)
Lemma selectRows_loop_grows remote fuel num updatedIds itemsSelected page
  updatedIds' itemsSelected' :
  (selectRows_loop remote fuel num updatedIds itemsSelected page).1 =
    Completed updatedIds' itemsSelected' →
  updatedIds ⊆ updatedIds'
  ∧ itemsSelected ≤ itemsSelected' ≤ Z.max itemsSelected num
  ∧ Z.of_nat (size updatedIds') ≤
      Z.of_nat (size updatedIds) + (itemsSelected' - itemsSelected).
Proof.
  revert updatedIds itemsSelected page.
  induction fuel as [|fuel IH]; intros u i page.
  - simpl. destruct (i <? num); simpl; [done|].
    intros [= <- <-]. split_and!; [done | lia | lia | lia].
  - destruct (Z.lt_ge_cases i num) as [Hlt | Hge].
    2:{ rewrite selectRows_loop_exit by lia. simpl.
        intros [= <- <-]. split_and!; [done | lia | lia | lia]. }
    rewrite selectRows_loop_body by done.
    destruct (remote page itemsPerPage) as [data|]; [|done].
    cbv zeta.
    set (t := Z.min (num - i) (Z.of_nat (length (ApiResponse.data data)))).
    set (rows := take (Z.to_nat t) (ApiResponse.data data)).
    assert (Hrows : Z.of_nat (length (ids rows)) = t).
    { subst rows. unfold ids. rewrite length_fmap, length_take. lia. }
    pose proof (size_union_list u (ids rows)) as Hsize.
    destruct (_ <? itemsPerPage); simpl.
    + intros [= <- <-]. split_and!; [set_solver | lia | lia | lia].
    + intros Hdone. apply IH in Hdone as (Hsub & Hcount & Hgrow).
      split_and!; [set_solver | lia | lia | lia].
Qed.

(** Without a positive [totalRecords] (nothing has been loaded yet, or
    the collection is empty) [selectRows] turns every input down: one
    warning, the state as it was, no read. *)
Theorem selectRows_nothing_loaded (remote : Remote) (st : State) :
  totalRecords st ≤ 0 →
  ∃ t, selectRows remote st = (st, [Notify t]) ∧ severity t = "warn"%string.
Proof.
  intros Htotal. unfold selectRows.
  destruct (JS.parseInt (inputValue st)) as [num|]; [|by exists invalidInput].
  destruct (Z.leb_spec num 0) as [Hle | Hpos].
  - rewrite orb_true_r. by exists invalidInput.
  - replace (num =? 0) with false by (symmetry; apply Z.eqb_neq; lia).
    replace (totalRecords st <? num) with true by (symmetry; apply Z.ltb_lt; lia).
    simpl. by exists (tooManyRows (totalRecords st)).
Qed.

Lemma selectRows_nothing_loaded_witness :
  let st := setInputValue "5" (setShowDropdown true initialState) in
  ∃ t, selectRows (pagedRemote (collection 128)) st = (st, [Notify t])
       ∧ severity t = "warn"%string.
Proof.
  apply (selectRows_nothing_loaded (pagedRemote (collection 128))
           (setInputValue "5" (setShowDropdown true initialState))).
  simpl. lia.
Defined.

(** Whatever is typed and whatever the service answers, [selectRows]
    never deselects an identifier and never changes the displayed
    records or the pagination data. *)
Theorem selectRows_preserves (remote : Remote) (st : State) :
  let st' := (selectRows remote st).1 in
  selectedIds st ⊆ selectedIds st'
  ∧ artworks st' = artworks st
  ∧ currentPage st' = currentPage st
  ∧ pageSize st' = pageSize st
  ∧ totalRecords st' = totalRecords st
  ∧ totalPages st' = totalPages st.
Proof.
  cbv zeta. unfold selectRows.
  destruct (JS.parseInt (inputValue st)) as [num|]; [|done].
  destruct ((num =? 0) || (num <=? 0)); [done|].
  destruct (totalRecords st <? num); [done|].
  pose proof (selectRows_loop_grows remote (Z.to_nat num) num (selectedIds st) 0 0)
    as Hgrows.
  destruct (selectRows_loop _ _ _ _ _ _) as [[updatedIds itemsSelected| |] tr];
    simpl; try done.
  destruct (Hgrows updatedIds itemsSelected eq_refl) as (Hsub & _). done.
Qed.

(** On an input that passes validation [selectRows] ends in one of two
    ways, whatever the service answers.  Either a read failed: the
    error is notified and the selection is the earlier one.  Or it
    reports [k] rows with [k ≤ num], and the selection has grown by at
    most [k] identifiers.  Both ways the loading indicator is off, the
    popover is closed and the input is empty. *)
Theorem selectRows_outcome (remote : Remote) (st : State) (num : Z) :
  JS.parseInt (inputValue st) = Some num →
  0 < num ≤ totalRecords st →
  let run := selectRows remote st in
  loading run.1 = false ∧ showDropdown run.1 = false ∧ inputValue run.1 = ""%string
  ∧ ((toasts run.2 = [selectionFailed] ∧ selectedIds run.1 = selectedIds st)
     ∨ (∃ k, toasts run.2 = [selectionDone k]
             ∧ 0 ≤ k ≤ num
             ∧ Z.of_nat (size (selectedIds run.1)) ≤
                 Z.of_nat (size (selectedIds st)) + k)).
Proof.
  intros Hparse [Hpos Hle]. cbv zeta. unfold selectRows. rewrite Hparse.
  replace (num =? 0) with false by (symmetry; apply Z.eqb_neq; lia).
  replace (num <=? 0) with false by (symmetry; apply Z.leb_gt; lia).
  replace (totalRecords st <? num) with false by (symmetry; apply Z.ltb_ge; lia).
  cbn [orb].
  pose proof (selectRows_loop_grows remote (Z.to_nat num) num (selectedIds st) 0 0)
    as Hgrows.
  pose proof (selectRows_loop_toasts remote (Z.to_nat num) num (selectedIds st) 0 0)
    as Hquiet.
  pose proof (selectRows_loop_ends remote num (selectedIds st)) as Hends.
  destruct (selectRows_loop _ _ _ _ _ _) as [[updatedIds itemsSelected| |] tr];
    cbn [fst snd] in *; rewrite ?toasts_app, ?Hquiet; try done.
  - destruct (Hgrows updatedIds itemsSelected eq_refl) as (_ & Hcount & Hsize).
    split_and!; try done. right. exists itemsSelected.
    split_and!; [done | lia | lia | simpl; lia].
  - split_and!; try done. by left.
Qed.

Lemma selectRows_outcome_witness :
  let remote := failingFrom 2 (collection 128) in
  let st := setInputValue "120" (setTotalRecords 128 initialState) in
  let run := selectRows remote st in
  loading run.1 = false ∧ showDropdown run.1 = false ∧ inputValue run.1 = ""%string
  ∧ ((toasts run.2 = [selectionFailed] ∧ selectedIds run.1 = selectedIds st)
     ∨ (∃ k, toasts run.2 = [selectionDone k]
             ∧ 0 ≤ k ≤ 120
             ∧ Z.of_nat (size (selectedIds run.1)) ≤
                 Z.of_nat (size (selectedIds st)) + k)).
Proof.
  apply (selectRows_outcome (failingFrom 2 (collection 128))
           (setInputValue "120" (setTotalRecords 128 initialState)) 120).
  - reflexivity.
  - simpl. lia.
Defined.

(** Whatever the service answers, the reads of [selectRows] on a valid
    input are for pages 0, 1, ..., k-1 in this order, each asking for
    50 records, with at least one and at most [ceil(num / 50)] reads. *)
Theorem selectRows_reads (remote : Remote) (st : State) (num : Z) :
  JS.parseInt (inputValue st) = Some num →
  0 < num ≤ totalRecords st →
  ∃ k, 1 ≤ k ≤ (num + itemsPerPage - 1) / itemsPerPage
       ∧ fetches (selectRows remote st).2 = (λ p, (p, itemsPerPage)) <$> seqZ 0 k.
Proof.
  intros Hparse [Hpos Hle]. unfold selectRows. rewrite Hparse.
  replace (num =? 0) with false by (symmetry; apply Z.eqb_neq; lia).
  replace (num <=? 0) with false by (symmetry; apply Z.leb_gt; lia).
  replace (totalRecords st <? num) with false by (symmetry; apply Z.ltb_ge; lia).
  cbn [orb].
  destruct (selectRows_loop_reads remote (Z.to_nat num) num (selectedIds st) 0 0)
    as (k & Hk & Hbound & Hfetch).
  pose proof (selectRows_loop_ends remote num (selectedIds st)) as Hends.
  assert (Hone : 1 ≤ k).
  { destruct (Z.le_gt_cases 1 k) as [|Hzero]; [done|].
    replace k with 0 in Hfetch by lia.
    destruct (Z.to_nat num) as [|fuel] eqn:Hfuel; [lia|].
    rewrite selectRows_loop_body in Hfetch by lia.
    destruct (remote 0 itemsPerPage); [|done].
    cbv zeta in Hfetch. by destruct (_ <? itemsPerPage). }
  exists k. split.
  - unfold itemsPerPage in *. specialize (Hbound ltac:(lia)).
    Z.div_mod_to_equations. lia.
  - destruct (selectRows_loop _ _ _ _ _ _) as [[updatedIds itemsSelected| |] tr];
      cbn [fst snd] in *; rewrite ?fetches_app, Hfetch; [|  |done];
      cbn [fetches]; by rewrite app_nil_r.
Qed.

Lemma selectRows_reads_witness :
  let remote := failingFrom 1 (collection 128) in
  let st := setInputValue "120" (setTotalRecords 128 initialState) in
  ∃ k, 1 ≤ k ≤ (120 + itemsPerPage - 1) / itemsPerPage
       ∧ fetches (selectRows remote st).2 = (λ p, (p, itemsPerPage)) <$> seqZ 0 k.
Proof.
  apply (selectRows_reads (failingFrom 1 (collection 128))
           (setInputValue "120" (setTotalRecords 128 initialState)) 120).
  - reflexivity.
  - simpl. lia.
Defined.

(** ** Bulk selection and the displayed page *)

Lemma elem_of_pageOf_take (ds : list Artwork.t) (page rows num : Z) (a : Artwork.t) :
  0 ≤ page → 0 < rows → (page + 1) * rows ≤ num →
  a ∈ pageOf ds page rows → a ∈ take (Z.to_nat num) ds.
Proof.
  intros Hpage Hrows Hnum. unfold pageOf.
  rewrite !elem_of_take. intros (i & Hi & Hlt).
  rewrite lookup_drop in Hi. exists (Z.to_nat (page * rows) + i)%nat.
  split; [done | nia].
Qed.

(** When the collection holds fewer records than were asked for (the
    total known to the component is out of date), [selectRows] stops at
    the first page that is not full: it reads [len / 50 + 1] pages,
    selects every record of the collection and reports their number,
    not the number asked for. *)
Theorem selectRows_short_collection (remote : Remote) (ds : list Artwork.t)
  (st : State) (num : Z) :
  serves remote ds →
  JS.parseInt (inputValue st) = Some num →
  0 < num ≤ totalRecords st →
  Z.of_nat (length ds) < num →
  let run := selectRows remote st in
  fetches run.2 =
    (λ p, (p, itemsPerPage)) <$> seqZ 0 (Z.of_nat (length ds) / itemsPerPage + 1)
  ∧ selectedIds run.1 = selectedIds st ∪ list_to_set (ids ds)
  ∧ toasts run.2 = [selectionDone (Z.of_nat (length ds))].
Proof.
  intros Hserves Hparse Hnum Hshort.
  destruct (selectRows_paged remote ds Hserves st num Hparse Hnum)
    as (Hstate & Hfetch & Htoast & _).
  assert (Hpages : pagesRead num (Z.of_nat (length ds)) =
                   Z.of_nat (length ds) / itemsPerPage + 1).
  { unfold pagesRead, itemsPerPage. Z.div_mod_to_equations. lia. }
  rewrite Hpages in *. rewrite Z.min_r in Htoast by lia.
  rewrite take_ge in Hstate by lia.
  cbv zeta. rewrite Hstate, Hfetch, Htoast. done.
Qed.

Lemma selectRows_short_collection_witness :
  let remote := pagedRemote (collection 100) in
  let st := setInputValue "120" (setTotalRecords 128 initialState) in
  let run := selectRows remote st in
  fetches run.2 =
    (λ p, (p, itemsPerPage)) <$>
      seqZ 0 (Z.of_nat (length (collection 100)) / itemsPerPage + 1)
  ∧ selectedIds run.1 = selectedIds st ∪ list_to_set (ids (collection 100))
  ∧ toasts run.2 = [selectionDone (Z.of_nat (length (collection 100)))].
Proof.
  apply (selectRows_short_collection (pagedRemote (collection 100)) (collection 100)
           (setInputValue "120" (setTotalRecords 128 initialState)) 120).
  - intros page rows _ _. eexists. split; reflexivity.
  - reflexivity.
  - simpl. lia.
  - simpl. lia.
Defined.

(** After the first [num] rows have been selected, the header checkbox
    is checked whenever the displayed page lies within the first [num]
    records of the collection, and every row of that page renders
    checked. *)
Theorem selectRows_checks_header (remote : Remote) (ds : list Artwork.t)
  (st : State) (num page rows : Z) :
  serves remote ds →
  JS.parseInt (inputValue st) = Some num →
  0 < num ≤ totalRecords st →
  0 ≤ page →
  0 < rows →
  artworks st = pageOf ds page rows →
  (page + 1) * rows ≤ num →
  let st' := (selectRows remote st).1 in
  isAllSelected st' = true
  ∧ ∀ data, data ∈ artworks st' → checkboxTemplate data st' = true.
Proof.
  intros Hserves Hparse Hnum Hpage Hrows Hshown Hwithin.
  destruct (selectRows_paged remote ds Hserves st num Hparse Hnum)
    as (Hstate & _). cbv zeta. rewrite Hstate.
  cbn [isAllSelected artworks selectRows_finally setInputValue setShowDropdown
         setLoading setIsAllSelected setSelectedIds].
  assert (Hall : ∀ data, data ∈ artworks st →
            Artwork.id data ∈ selectedIds st ∪ list_to_set (ids (take (Z.to_nat num) ds))).
  { intros data Hdata. rewrite Hshown in Hdata.
    apply (elem_of_pageOf_take ds page rows num) in Hdata; [|done..].
    apply elem_of_union_r, elem_of_list_to_set. unfold ids.
    by apply list_elem_of_fmap_2. }
  split.
  - apply every_has. intros i Hi. unfold ids in Hi.
    apply list_elem_of_fmap in Hi as (data & -> & Hdata). by apply Hall.
  - intros data Hdata. unfold checkboxTemplate. apply has_true. by apply Hall.
Qed.

Lemma selectRows_checks_header_witness :
  let remote := pagedRemote (collection 128) in
  let st := setInputValue "75" (handle ChevronClick
              (handle (PageChange remote 6 10) initialState).1).1 in
  let st' := (selectRows remote st).1 in
  isAllSelected st' = true
  ∧ ∀ data, data ∈ artworks st' → checkboxTemplate data st' = true.
Proof.
  apply (selectRows_checks_header (pagedRemote (collection 128)) (collection 128)
           (setInputValue "75" (handle ChevronClick
              (handle (PageChange (pagedRemote (collection 128)) 6 10) initialState).1).1)
           75 6 10).
  - intros page rows _ _. eexists. split; reflexivity.
  - reflexivity.
  - simpl. lia.
  - lia.
  - lia.
  - reflexivity.
  - lia.
Defined.
